(** * Topology dictionary builder: the unit test and the core it exercises

    The development follows [utest_topology_dict_builder.py].  Numbers are
    IEEE binary64 values (Rocq's primitive floats, which are Python's
    [float] and numpy's [float64]); a numpy array of three coordinates is a
    record of three floats.  The test methods run in a small monad that
    carries what the run leaves behind (printed lines, performed
    assertions, numpy divisions) and that stops at the first raised
    exception, as the [unittest] methods do. *)

From Stdlib Require Import Floats.
From stdpp Require Import gmap list strings.

#[local] Set Warnings "-inexact-float".

(** ** Exceptions and results *)

Inductive exn : Type :=
| AssertionError
| LookupError
| MalformedShapeError
| IndexError
| KernelError.

Inductive result (A : Type) : Type :=
| Ok (a : A)
| Raise (e : exn).
Arguments Ok {A} a.
Arguments Raise {A} e.

#[global] Instance result_ret : MRet result := fun A a => Ok a.
#[global] Instance result_fmap : FMap result := fun A B f r =>
  match r with
  | Ok a => Ok (f a)
  | Raise e => Raise e
  end.
#[global] Instance result_bind : MBind result := fun A B f r =>
  match r with
  | Ok a => f a
  | Raise e => Raise e
  end.

(** ** What a run of the test leaves behind *)

Inductive event : Type :=
| PrintProcessingFile (pathname : string)  (* print(f"Processing file {pathname}") *)
| PrintBody (index : nat)                (* print(f"Body {index}") *)
| PrintNoShape (nr : nat)                (* print("No Shape", nr) *)
| AssertTrue (b : bool)                  (* self.assertTrue(b) *)
| Divide (num den : float).              (* numpy scalar division num/den *)

Definition Test (A : Type) : Type := list event -> list event * result A.

#[global] Instance Test_ret : MRet Test := fun A a log => (log, Ok a).
#[global] Instance Test_bind : MBind Test := fun A B f m log =>
  match m log with
  | (log', Ok a) => f a log'
  | (log', Raise e) => (log', Raise e)
  end.

Definition emit (e : event) : Test unit := fun log => (log ++ [e], Ok tt).
Definition raise {A : Type} (e : exn) : Test A := fun log => (log, Raise e).
Definition lift {A : Type} (r : result A) : Test A := fun log => (log, r).

(** [self.assertTrue(b)]: the assertion is performed, and raises when [b]
    is false. *)
Definition assertTrue (b : bool) : Test unit :=
  _ ← emit (AssertTrue b);
  if b then mret tt else raise AssertionError.

(** [for x in l: body(x)], stopping at the first exception. *)
Fixpoint for_each {A : Type} (body : A -> Test unit) (l : list A) : Test unit :=
  match l with
  | [] => mret tt
  | x :: l' => _ ← body x; for_each body l'
  end.

(** ** numpy arrays of three coordinates *)

Record array3 : Type := Array3 { c0 : float; c1 : float; c2 : float }.

Definition np_sub (a b : array3) : array3 :=
  Array3 (c0 a - c0 b) (c1 a - c1 b) (c2 a - c2 b)%float.

Definition np_neg (a : array3) : array3 :=
  Array3 (- c0 a) (- c1 a) (- c2 a)%float.

Definition np_cross (a b : array3) : array3 :=
  Array3 (c1 a * c2 b - c2 a * c1 b)
         (c2 a * c0 b - c0 a * c2 b)
         (c0 a * c1 b - c1 a * c0 b)%float.

(** [np.dot] of two one-dimensional arrays: the products are added one
    after the other to an accumulator that starts at +0.0. *)
Definition np_dot (a b : array3) : float :=
  (0 + c0 a * c0 b + c1 a * c1 b + c2 a * c2 b)%float.

(** [np.linalg.norm] of a real one-dimensional array: the square root of the
    array's dot product with itself. *)
Definition np_linalg_norm (a : array3) : float := sqrt (np_dot a a).

(** numpy's scalar division: performed, never raising (a zero denominator
    gives an infinity or a NaN and a RuntimeWarning). *)
Definition np_divide (num den : float) : Test float :=
  _ ← emit (Divide num den);
  mret (num / den)%float.

(** ** [vectors_parallel] *)

(** [math.pi] *)
Definition math_pi : float := 0x1.921fb54442d18p+1%float.

(** The constants of [vectors_parallel]: [eps = 1e-7], [angle_tol_deg = 1]
    (an integer, converted by the multiplication with [math.pi]) and
    [angle_tol_rands = math.pi * angle_tol_deg/180.8]. *)
Definition eps : float := 1e-7%float.
Definition angle_tol_deg : float := 1%float.
Definition angle_tol_rands : float := (math_pi * angle_tol_deg / 180.8)%float.

Section Harness.

(** [math.cos], the C library's cosine. *)
Variable math_cos : float -> float.

Definition cos_tol_angle : float := math_cos angle_tol_rands.

Definition vectors_parallel (v1 v2 : array3) : Test bool :=
  let l1 := np_linalg_norm v1 in
  let l2 := np_linalg_norm v2 in
  if (l1 <? eps)%float then mret true
  else if (l2 <? eps)%float then mret true
  else
    let d := np_dot v1 v2 in
    cos_angle ← np_divide d (l1 * l2)%float;
    (* return cos_tol_angle > cos_angle *)
    mret (cos_angle <? cos_tol_angle)%float.

End Harness.

(** ** The CAD kernel's shapes

    A shape is what the kernel answers about it.  Entities are opaque
    handles (the kernel's object identity); the queries are the
    decomposition of the root into shells, of a shell into face uses, of a
    face into wires, of a wire into edge uses and of an edge into its two
    vertices, the point of a vertex, the first derivatives of a face's
    surface, and the triangulation that meshing attached to a face. *)

Abbreviation Handle := nat.

Record Poly_Triangulation : Type := {
  Nodes : list array3;              (* mesh.Node(i), i = 1.. *)
  UVNodes : list (float * float);   (* mesh.UVNode(i), i = 1.. *)
  Triangles : list (nat * nat * nat) (* mesh.Triangle(i).Get(), i = 1.. *)
}.

Record Shape : Type := {
  shells_of : list Handle;
  faces_of : Handle -> list (Handle * bool);
  wires_of : Handle -> list Handle;
  surface_orientation_of : Handle -> bool;
  edges_of : Handle -> list (Handle * bool);
  vertices_of : Handle -> Handle * Handle;
  point_of : Handle -> array3;
  surface_D1 : Handle -> float -> float -> array3 * array3 * array3;
  mesh_is_done : bool;
  triangulation_of : Handle -> option Poly_Triangulation
}.

(** The kernel's boolean operation after [Perform]. *)
Record BOPAlgo_Builder : Type := {
  HasErrors : bool;
  builder_Shape : Shape
}.

Inductive kind : Type := Vertex | Edge | Wire | Face | Shell.

(** Modelled from the spec: the kernel's decomposition order.  The
    entities of one kind in the order the traversal solid, shell, face,
    wire, edge, vertex meets them; an entity with several parents is met
    once per parent. *)
Definition shell_seq (s : Shape) : list Handle := shells_of s.
Definition face_seq (s : Shape) : list Handle :=
  flat_map (fun sh => (faces_of s sh).*1) (shell_seq s).
Definition wire_seq (s : Shape) : list Handle :=
  flat_map (wires_of s) (face_seq s).
Definition edge_seq (s : Shape) : list Handle :=
  flat_map (fun w => (edges_of s w).*1) (wire_seq s).
Definition vertex_seq (s : Shape) : list Handle :=
  flat_map (fun e => [(vertices_of s e).1; (vertices_of s e).2]) (edge_seq s).

Definition explore (s : Shape) (k : kind) : list Handle :=
  match k with
  | Vertex => vertex_seq s
  | Edge => edge_seq s
  | Wire => wire_seq s
  | Face => face_seq s
  | Shell => shell_seq s
  end.

(** The handles of [l] that are not in [seen], each at its first
    occurrence. *)
Fixpoint first_seen (seen : gset Handle) (l : list Handle) : list Handle :=
  match l with
  | [] => []
  | h :: l' =>
      if decide (h ∈ seen) then first_seen seen l'
      else h :: first_seen ({[h]} ∪ seen) l'
  end.

(** [TopologyExplorer(body).faces()]: every face of the body once. *)
Definition TopologyExplorer_faces (s : Shape) : list Handle :=
  first_seen ∅ (explore s Face).

(** Modelled from the spec: a manifold solid, in which every face is used
    by exactly one shell, exactly once. *)
Definition manifold (s : Shape) : Prop := NoDup (explore s Face).

(** ** The entity mapper *)

Module EntityMapper.

(** Modelled from the spec: [entity_mapper.py] is not among the sources.
    The mapper holds one table per entity kind, from the entity to its
    index; construction decomposes the root once and gives an entity the
    next free index when it is first met. *)
Record t : Type := {
  vertex_map : gmap Handle nat;
  edge_map : gmap Handle nat;
  wire_map : gmap Handle nat;
  face_map : gmap Handle nat;
  shell_map : gmap Handle nat
}.

Definition map_of (m : t) (k : kind) : gmap Handle nat :=
  match k with
  | Vertex => vertex_map m
  | Edge => edge_map m
  | Wire => wire_map m
  | Face => face_map m
  | Shell => shell_map m
  end.

(** Modelled from the spec: an entity met again keeps its index, a new one
    gets the number of entities indexed so far. *)
Definition append (tbl : gmap Handle nat) (h : Handle) : gmap Handle nat :=
  match tbl !! h with
  | Some _ => tbl
  | None => <[h := size tbl]> tbl
  end.

Definition append_all (l : list Handle) : gmap Handle nat := foldl append ∅ l.

(** Modelled from the spec: [EntityMapper(shape)], the full decomposition
    pass at construction time. *)
Definition new (s : Shape) : t := {|
  vertex_map := append_all (explore s Vertex);
  edge_map := append_all (explore s Edge);
  wire_map := append_all (explore s Wire);
  face_map := append_all (explore s Face);
  shell_map := append_all (explore s Shell)
|}.

(** Modelled from the spec: [index_of]; an entity never discovered from the
    root is a Lookup error, no index is assigned after construction. *)
Definition index_of (m : t) (k : kind) (h : Handle) : result nat :=
  match map_of m k !! h with
  | Some i => Ok i
  | None => Raise LookupError
  end.

(** Modelled from the spec: [count]. *)
Definition count (m : t) (k : kind) : nat := size (map_of m k).

End EntityMapper.

(** ** The dictionary builder *)

Module TopologyDictBuilder.

(** Modelled from the spec: [topology_dict_builder.py] is not among the
    sources.  The records of the dictionary; the test reads the keys
    [shells], [faces], [face_orientation_wrt_shell] and
    [surface_orientation]. *)
Record edge_record : Type := { start_vertex : nat; end_vertex : nat }.
Record edge_use : Type := { edge_index : nat; orientation : bool }.
Record wire_record : Type := { wire_edges : list edge_use }.
Record face_record : Type := {
  outer_wire : nat;
  inner_wires : list nat;
  surface_orientation : bool
}.
Record face_use : Type := { face_index : nat; face_orientation_wrt_shell : bool }.
Record shell_record : Type := { shell_faces : list face_use }.

Record dict : Type := {
  vertices : list array3;
  edges : list edge_record;
  wires : list wire_record;
  faces : list face_record;
  shells : list shell_record
}.

(** [mapM] for results: the first error stops the traversal. *)
Fixpoint traverse {A B : Type} (f : A -> result B) (l : list A) : result (list B) :=
  match l with
  | [] => Ok []
  | x :: l' => y ← f x; ys ← traverse f l'; mret (y :: ys)
  end.

Section Records.

Variable m : EntityMapper.t.
Variable s : Shape.

(** Modelled from the spec: the vertex record is the point. *)
Definition vertex_record (h : Handle) : result array3 := Ok (point_of s h).

(** Modelled from the spec: the edge record is the pair of the indices of
    its two bounding vertices. *)
Definition edge_record_of (h : Handle) : result edge_record :=
  i ← EntityMapper.index_of m Vertex (vertices_of s h).1;
  j ← EntityMapper.index_of m Vertex (vertices_of s h).2;
  mret {| start_vertex := i; end_vertex := j |}.

(** Modelled from the spec: the wire record is the ordered list of edge
    index and orientation, the orientation read from the kernel's use. *)
Definition wire_record_of (h : Handle) : result wire_record :=
  us ← traverse (fun u : Handle * bool =>
                   i ← EntityMapper.index_of m Edge u.1;
                   mret {| edge_index := i; orientation := u.2 |})
                (edges_of s h);
  mret {| wire_edges := us |}.

(** Modelled from the spec: outer wire, hole wires and the face's own
    flag; a face without wires is malformed. *)
Definition face_record_of (h : Handle) : result face_record :=
  match wires_of s h with
  | [] => Raise MalformedShapeError
  | w :: ws =>
      o ← EntityMapper.index_of m Wire w;
      inner ← traverse (EntityMapper.index_of m Wire) ws;
      mret {| outer_wire := o; inner_wires := inner;
              surface_orientation := surface_orientation_of s h |}
  end.

(** Modelled from the spec: the ordered list of face index and orientation
    of the face in this shell, the orientation read from the kernel's
    use; a shell without faces is malformed. *)
Definition shell_record_of (h : Handle) : result shell_record :=
  match faces_of s h with
  | [] => Raise MalformedShapeError
  | us =>
      fs ← traverse (fun u : Handle * bool =>
                       i ← EntityMapper.index_of m Face u.1;
                       mret {| face_index := i; face_orientation_wrt_shell := u.2 |})
                    us;
      mret {| shell_faces := fs |}
  end.

End Records.

(** Modelled from the spec: one pass over the entities of a kind in
    traversal order; the record of an entity is emitted when the entity is
    first met. *)
Fixpoint pass {R : Type} (record_of : Handle -> result R)
    (seen : gset Handle) (l : list Handle) : result (list R) :=
  match l with
  | [] => Ok []
  | h :: l' =>
      if decide (h ∈ seen) then pass record_of seen l'
      else
        r ← record_of h;
        rs ← pass record_of ({[h]} ∪ seen) l';
        mret (r :: rs)
  end.

(** Modelled from the spec: [TopologyDictBuilder(mapper).build_dict_for_body];
    a solid without shells is malformed. *)
Definition build_dict_for_body (m : EntityMapper.t) (s : Shape) : result dict :=
  match shells_of s with
  | [] => Raise MalformedShapeError
  | _ =>
      vs ← pass (vertex_record s) ∅ (explore s Vertex);
      es ← pass (edge_record_of m s) ∅ (explore s Edge);
      ws ← pass (wire_record_of m s) ∅ (explore s Wire);
      fs ← pass (face_record_of m s) ∅ (explore s Face);
      ss ← pass (shell_record_of m s) ∅ (explore s Shell);
      mret {| vertices := vs; edges := es; wires := ws; faces := fs; shells := ss |}
  end.

End TopologyDictBuilder.

(** ** The test's checks *)

Import TopologyDictBuilder.

(** The loop of [check_face_orientation_wrt_shell] over [output["shells"]],
    with the running [total_num_shell_faces]. *)
Fixpoint count_shell_faces (shs : list shell_record) (total_num_shell_faces : nat)
    : Test nat :=
  match shs with
  | [] => mret total_num_shell_faces
  | shell :: rest =>
      let total := total_num_shell_faces + length (shell_faces shell) in
      _ ← for_each (fun face => assertTrue (face_orientation_wrt_shell face))
                   (shell_faces shell);
      count_shell_faces rest total
  end.

Definition check_face_orientation_wrt_shell (output : dict) : Test unit :=
  total_num_shell_faces ← count_shell_faces (shells output) 0;
  assertTrue (bool_decide (total_num_shell_faces = length (faces output))).

(** [mesh.Node(index)] and [mesh.UVNode(index)] count from 1; an index out
    of range is the kernel's error. *)
Definition item1 {A : Type} (l : list A) (index : nat) : Test A :=
  match index with
  | 0 => raise KernelError
  | S i => match l !! i with
           | Some x => mret x
           | None => raise KernelError
           end
  end.

Definition get_tri_vertex_coord (mesh : Poly_Triangulation) (index : nat) : Test array3 :=
  item1 (Nodes mesh) index.

Definition get_face_normal (surf : float -> float -> array3 * array3 * array3)
    (uv : float * float) (face_orientation_wrt_surf : bool) : array3 :=
  let '(_, u_deriv, v_deriv) := surf uv.1 uv.2 in
  let face_normal := np_cross u_deriv v_deriv in
  if negb face_orientation_wrt_surf then np_neg face_normal else face_normal.

Section Checks.

Variable math_cos : float -> float.

(** The body of the loop over the triangles of a face's mesh. *)
Definition check_triangle (surf : float -> float -> array3 * array3 * array3)
    (face_orientation : bool) (mesh : Poly_Triangulation)
    (tri : nat * nat * nat) : Test unit :=
  let '(index1, index2, index3) := tri in
  pt1 ← get_tri_vertex_coord mesh index1;
  pt2 ← get_tri_vertex_coord mesh index2;
  pt3 ← get_tri_vertex_coord mesh index3;
  let v1 := np_sub pt2 pt1 in
  let v2 := np_sub pt2 pt3 in
  let normal_from_triangle := np_cross v1 v2 in
  uv1 ← item1 (UVNodes mesh) index1;
  let normal_from_face := get_face_normal surf uv1 face_orientation in
  b ← vectors_parallel math_cos normal_from_face normal_from_triangle;
  assertTrue b.

Definition check_face_orientation_against_triangles (body : Shape)
    (output_face : face_record) (face : Handle) : Test unit :=
  let face_orientation := surface_orientation output_face in
  let surf := surface_D1 body face in
  match triangulation_of body face with
  | Some mesh => for_each (check_triangle surf face_orientation mesh) (Triangles mesh)
  | None => mret tt
  end.

Definition check_face_orientations_against_triangles (output : dict) (body : Shape)
    (entity_mapper : EntityMapper.t) : Test unit :=
  for_each (fun face =>
              face_index ← lift (EntityMapper.index_of entity_mapper Face face);
              output_face ← match faces output !! face_index with
                            | Some r => mret r
                            | None => raise IndexError
                            end;
              check_face_orientation_against_triangles body output_face face)
           (TopologyExplorer_faces body).

Definition check_output_for_body (output : dict) (body : Shape)
    (entity_mapper : EntityMapper.t) (expect_manifold : bool) : Test unit :=
  _ ← assertTrue (mesh_is_done body);
  if expect_manifold then
    _ ← check_face_orientation_wrt_shell output;
    check_face_orientations_against_triangles output body entity_mapper
  else mret tt.

Definition build_dict_for_body (body : Shape) (expect_manifold : bool) : Test unit :=
  let entity_mapper := EntityMapper.new body in
  output ← lift (TopologyDictBuilder.build_dict_for_body entity_mapper body);
  check_output_for_body output body entity_mapper expect_manifold.

(** [make_non_manifold_body]: the two boxes are handed to the kernel's
    [BOPAlgo_Builder]; the test sees whether the builder reports errors
    and the shape it returns. *)
Definition make_non_manifold_body (builder : BOPAlgo_Builder) : Test Shape :=
  _ ← assertTrue (negb (HasErrors builder));
  mret (builder_Shape builder).

Definition build_dict_for_non_manifold_body (builder : BOPAlgo_Builder) : Test unit :=
  body ← make_non_manifold_body builder;
  build_dict_for_body body false.

(** What the STEP reader finds at a path: whether the file is there,
    whether [ReadFile] ends with [IFSelect_RetDone], and for each root in
    turn the shape it transfers to, or nothing when the transfer raises. *)
Record StepPath : Type := {
  path_name : string;
  path_exists : bool;
  read_done : bool;
  roots : list (option Shape)
}.

(** The [while True] loop of [load_bodies_from_file]: it ends when
    [TransferRoot] finds no further root, or in the [except] branch. *)
Fixpoint transfer_roots (rs : list (option Shape)) (nr : nat) (shapes : list Shape)
    : Test (list Shape) :=
  match rs with
  | [] => mret shapes
  | Some sh :: rest => transfer_roots rest (S nr) (shapes ++ [sh])
  | None :: _ => _ ← emit (PrintNoShape nr); mret shapes
  end.

Definition load_bodies_from_file (pathname : StepPath) : Test (list Shape) :=
  _ ← assertTrue (path_exists pathname);
  if read_done pathname then transfer_roots (roots pathname) 1 []
  else raise AssertionError.

(** [for index, body in enumerate(bodies)] of [build_dicts_for_file]. *)
Fixpoint build_dicts_from (index : nat) (bodies : list Shape) : Test unit :=
  match bodies with
  | [] => mret tt
  | body :: rest =>
      _ ← emit (PrintBody index);
      _ ← build_dict_for_body body true;
      build_dicts_from (S index) rest
  end.

Definition build_dicts_for_file (pathname : StepPath) : Test unit :=
  _ ← emit (PrintProcessingFile (path_name pathname));
  bodies ← load_bodies_from_file pathname;
  build_dicts_from 0 bodies.

(** [test_build_dicts_for_files]: the body that is not manifold first,
    then every file of the data directory, the [stp] files before the
    [step] files; [glob ext] is what [data_dir.glob(f"**/*.{ext}")]
    yields. *)
Definition extensions : list string := ["stp"; "step"].

Definition test_build_dicts_for_files (builder : BOPAlgo_Builder)
    (glob : string -> list StepPath) : Test unit :=
  _ ← build_dict_for_non_manifold_body builder;
  let step_files := flat_map glob extensions in
  for_each build_dicts_for_file step_files.

End Checks.

(** ** Results of the dictionary seen per kind *)

Inductive entity_record : Type :=
| VertexRecord (r : array3)
| EdgeRecord (r : edge_record)
| WireRecord (r : wire_record)
| FaceRecord (r : face_record)
| ShellRecord (r : shell_record).

(** The flat list of the dictionary for a kind. *)
Definition records (d : dict) (k : kind) : list entity_record :=
  match k with
  | Vertex => VertexRecord <$> vertices d
  | Edge => EdgeRecord <$> edges d
  | Wire => WireRecord <$> wires d
  | Face => FaceRecord <$> faces d
  | Shell => ShellRecord <$> shells d
  end.

(** The record the builder writes for an entity of a kind. *)
Definition record_of (m : EntityMapper.t) (s : Shape) (k : kind) (h : Handle)
    : result entity_record :=
  match k with
  | Vertex => VertexRecord <$> vertex_record s h
  | Edge => EdgeRecord <$> edge_record_of m s h
  | Wire => WireRecord <$> wire_record_of m s h
  | Face => FaceRecord <$> face_record_of m s h
  | Shell => ShellRecord <$> shell_record_of m s h
  end.

(** The number of face uses over all shell records. *)
Definition total_face_uses (d : dict) : nat :=
  sum_list ((fun sh => length (shell_faces sh)) <$> shells d).

(** A table [tbl] enumerates a list [ds] when it sends every entity of the
    list to its position, and nothing else anywhere. *)
Definition enumerates (tbl : gmap Handle nat) (ds : list Handle) : Prop :=
  size tbl = length ds /\
  forall h i, tbl !! h = Some i <-> ds !! i = Some h.

(** ** Notions for stating what a run does *)

(** The shapes of the roots that transfer, up to the first one whose
    transfer raises. *)
Fixpoint transferred (rs : list (option Shape)) : list Shape :=
  match rs with
  | Some sh :: rest => sh :: transferred rest
  | _ => []
  end.

(** What the [except] branch prints: nothing when every root transfers,
    else the number of the root that raised, counted from [nr]. *)
Definition no_shape_report (rs : list (option Shape)) (nr : nat) : list event :=
  if decide (length (transferred rs) = length rs) then []
  else [PrintNoShape (nr + length (transferred rs))].

(** The outcomes of the assertions of a log, in order. *)
Definition assertions (log : list event) : list bool :=
  omap (fun e => match e with AssertTrue b => Some b | _ => None end) log.

(** The indices of the bodies announced in a log, in order. *)
Definition announced (log : list event) : list nat :=
  omap (fun e => match e with PrintBody index => Some index | _ => None end) log.

(** The events of building and checking one body: assertions and
    divisions, no printed line. *)
Definition check_event (e : event) : Prop :=
  match e with
  | AssertTrue _ | Divide _ _ => True
  | _ => False
  end.

(** A computation emits [P] when it only appends to the log, and only
    events that satisfy [P]. *)
Definition emits {A : Type} (P : event -> Prop) (m : Test A) : Prop :=
  forall log, exists suffix, (m log).1 = log ++ suffix /\ Forall P suffix.

(** The normal the check computes from the three nodes of a triangle. *)
Definition triangle_normal (pt1 pt2 pt3 : array3) : array3 :=
  np_cross (np_sub pt2 pt1) (np_sub pt2 pt3).

(** The quotient [vectors_parallel] compares with the tolerance. *)
Definition cos_between (v1 v2 : array3) : float :=
  (np_dot v1 v2 / (np_linalg_norm v1 * np_linalg_norm v2))%float.

(** ** Example shapes *)

(** A cosine for running the examples: the Taylor polynomial of degree 4. *)
Definition cos_poly (x : float) : float :=
  (1 - x * x / 2 + x * x * x * x / 24)%float.

(** The plane z = 0, parametrised by (u, v). *)
Definition plane_D1 (u v : float) : array3 * array3 * array3 :=
  (Array3 u v 0, Array3 1 0 0, Array3 0 1 0).

Definition triangle_mesh (tri : nat * nat * nat) : Poly_Triangulation := {|
  Nodes := [Array3 0 0 0; Array3 1 0 0; Array3 0 1 0];
  UVNodes := [(0, 0); (1, 0); (0, 1)]%float;
  Triangles := [tri]
|}.

(** A triangular plate: one shell of two faces (top 1, bottom 2) on the
    same plane, each bounded by one wire over the same three edges.
    [use1] is the orientation of face 1 in the shell, [tri1] the triangle
    of its mesh. *)
Definition plate_with (use1 : bool) (tri1 : nat * nat * nat) : Shape := {|
  shells_of := [1];
  faces_of := fun sh => match sh with 1 => [(1, use1); (2, true)] | _ => [] end;
  wires_of := fun f => match f with 1 => [1] | 2 => [2] | _ => [] end;
  surface_orientation_of := fun f => match f with 1 => true | _ => false end;
  edges_of := fun w =>
    match w with
    | 1 => [(1, true); (2, true); (3, true)]
    | 2 => [(3, false); (2, false); (1, false)]
    | _ => []
    end;
  vertices_of := fun e => match e with 1 => (1, 2) | 2 => (2, 3) | _ => (3, 1) end;
  point_of := fun v =>
    match v with
    | 1 => Array3 0 0 0
    | 2 => Array3 1 0 0
    | _ => Array3 0 1 0
    end;
  surface_D1 := fun _ => plane_D1;
  mesh_is_done := true;
  triangulation_of := fun f =>
    match f with
    | 1 => Some (triangle_mesh tri1)
    | 2 => Some (triangle_mesh (1, 3, 2))
    | _ => None
    end
|}.

Definition plate : Shape := plate_with true (1, 2, 3).

(** The plate with face 1 used inwards by its shell. *)
Definition plate_inward : Shape := plate_with false (1, 2, 3).

(** The dictionary of the plate. *)
Definition plate_dict : dict := {|
  vertices := [Array3 0 0 0; Array3 1 0 0; Array3 0 1 0];
  edges := [ {| start_vertex := 0; end_vertex := 1 |};
             {| start_vertex := 1; end_vertex := 2 |};
             {| start_vertex := 2; end_vertex := 0 |} ];
  wires := [ {| wire_edges := [ {| edge_index := 0; orientation := true |};
                                {| edge_index := 1; orientation := true |};
                                {| edge_index := 2; orientation := true |} ] |};
             {| wire_edges := [ {| edge_index := 2; orientation := false |};
                                {| edge_index := 1; orientation := false |};
                                {| edge_index := 0; orientation := false |} ] |} ];
  faces := [ {| outer_wire := 0; inner_wires := []; surface_orientation := true |};
             {| outer_wire := 1; inner_wires := []; surface_orientation := false |} ];
  shells := [ {| shell_faces :=
                   [ {| face_index := 0; face_orientation_wrt_shell := true |};
                     {| face_index := 1; face_orientation_wrt_shell := true |} ] |} ]
|}.

(** Two cells that share face 2: a shape that is not manifold. *)
Definition two_cells : Shape := {|
  shells_of := [1; 2];
  faces_of := fun sh =>
    match sh with
    | 1 => [(1, true); (2, true)]
    | 2 => [(2, false); (3, true)]
    | _ => []
    end;
  wires_of := fun f => [f];
  surface_orientation_of := fun _ => true;
  edges_of := fun w => [(w, true)];
  vertices_of := fun e => (e, e);
  point_of := fun _ => Array3 0 0 0;
  surface_D1 := fun _ => plane_D1;
  mesh_is_done := true;
  triangulation_of := fun _ => None
|}.

(** A solid without shells. *)
Definition empty_solid : Shape := {|
  shells_of := [];
  faces_of := fun _ => [];
  wires_of := fun _ => [];
  surface_orientation_of := fun _ => true;
  edges_of := fun _ => [];
  vertices_of := fun _ => (0, 0);
  point_of := fun _ => Array3 0 0 0;
  surface_D1 := fun _ => plane_D1;
  mesh_is_done := true;
  triangulation_of := fun _ => None
|}.

(** A file of two bodies, the first of which cannot be built. *)
Definition two_bodies : StepPath := {|
  path_name := "data/two_bodies.step";
  path_exists := true;
  read_done := true;
  roots := [Some empty_solid; Some plate]
|}.

(** A file whose second root raises when it is transferred. *)
Definition truncated_file : StepPath := {|
  path_name := "data/truncated.stp";
  path_exists := true;
  read_done := true;
  roots := [Some plate; None; Some plate_inward]
|}.

(** A path with no file behind it. *)
Definition missing_file : StepPath := {|
  path_name := "data/missing.step";
  path_exists := false;
  read_done := true;
  roots := [Some plate]
|}.

(** A dictionary whose shell has an inward use between two outward ones,
    and no face at all. *)
Definition inward_dict : dict := {|
  vertices := [];
  edges := [];
  wires := [];
  faces := [];
  shells := [ {| shell_faces :=
                   [ {| face_index := 0; face_orientation_wrt_shell := true |};
                     {| face_index := 1; face_orientation_wrt_shell := false |};
                     {| face_index := 2; face_orientation_wrt_shell := true |} ] |} ]
|}.

(** A file of one body, and a [step] file of one body. *)
Definition one_body : StepPath := {|
  path_name := "data/one_body.stp";
  path_exists := true;
  read_done := true;
  roots := [Some plate]
|}.

Definition late_file : StepPath := {|
  path_name := "data/late.step";
  path_exists := true;
  read_done := true;
  roots := [Some plate]
|}.

(** An [stp] file whose first body cannot be built. *)
Definition bad_body : StepPath := {|
  path_name := "data/bad_body.stp";
  path_exists := true;
  read_done := true;
  roots := [Some empty_solid; Some plate]
|}.

(** A data directory with three [stp] files, the second of which fails,
    and one [step] file. *)
Definition data_dir (ext : string) : list StepPath :=
  if decide (ext = "stp") then [one_body; bad_body; one_body]
  else if decide (ext = "step") then [late_file]
  else [].

(** * Properties *)

(** ** The test monad *)

Lemma run_bind {A B : Type} (m : Test A) (f : A -> Test B) (log : list event) :
  (m ≫= f) log =
  match m log with
  | (log', Ok a) => f a log'
  | (log', Raise e) => (log', Raise e)
  end.
Proof. reflexivity. Qed.

Lemma run_assertTrue_true (log : list event) :
  assertTrue true log = (log ++ [AssertTrue true], Ok tt).
Proof. reflexivity. Qed.

Lemma run_assertTrue_false (log : list event) :
  assertTrue false log = (log ++ [AssertTrue false], Raise AssertionError).
Proof. reflexivity. Qed.

(** ** [vectors_parallel] *)

Section VectorsParallel.

Variable math_cos : float -> float.

(** Past the two guards the function divides once and answers whether the
    cosine of the angle is below the cosine of the tolerance. *)
Lemma vectors_parallel_nondegenerate (v1 v2 : array3) (log : list event) :
  (np_linalg_norm v1 <? eps)%float = false ->
  (np_linalg_norm v2 <? eps)%float = false ->
  vectors_parallel math_cos v1 v2 log =
  (log ++ [Divide (np_dot v1 v2) (np_linalg_norm v1 * np_linalg_norm v2)%float],
   Ok (np_dot v1 v2 / (np_linalg_norm v1 * np_linalg_norm v2)
       <? math_cos angle_tol_rands)%float).
Proof.
  intros H1 H2. unfold vectors_parallel.
  rewrite H1, H2. reflexivity.
Qed.

(** C8: when either norm is below [eps] the answer is [True] and the run
    leaves nothing behind: no division was performed, whatever the product
    of the norms is. *)
Theorem vectors_parallel_degenerate (v1 v2 : array3) (log : list event) :
  (np_linalg_norm v1 <? eps)%float = true \/
  (np_linalg_norm v2 <? eps)%float = true ->
  vectors_parallel math_cos v1 v2 log = (log, Ok true).
Proof.
  intros Hguard. unfold vectors_parallel.
  destruct (np_linalg_norm v1 <? eps)%float eqn:H1.
  - reflexivity.
  - destruct Hguard as [H | H]; [discriminate H |].
    rewrite H. reflexivity.
Qed.

(** A division that was performed had both norms pass the guards. *)
Lemma vectors_parallel_division_guarded (v1 v2 : array3)
    (log log' : list event) (r : result bool) :
  vectors_parallel math_cos v1 v2 log = (log', r) ->
  log' <> log ->
  (np_linalg_norm v1 <? eps)%float = false /\
  (np_linalg_norm v2 <? eps)%float = false /\
  log' = log ++ [Divide (np_dot v1 v2) (np_linalg_norm v1 * np_linalg_norm v2)%float].
Proof.
  intros Hrun Hlog.
  destruct (np_linalg_norm v1 <? eps)%float eqn:H1;
    [| destruct (np_linalg_norm v2 <? eps)%float eqn:H2].
  - unfold vectors_parallel in Hrun. rewrite H1 in Hrun.
    injection Hrun as <- _. contradiction.
  - unfold vectors_parallel in Hrun. rewrite H1, H2 in Hrun.
    injection Hrun as <- _. contradiction.
  - rewrite vectors_parallel_nondegenerate in Hrun by assumption.
    injection Hrun as <- _. auto.
Qed.

(** C1: two identical unit normals are not judged parallel, and a face
    whose surface normal equals the normal the check computes from its
    triangle fails the check. *)
Theorem identical_normals_not_parallel (log : list event) :
  (1 <? math_cos angle_tol_rands)%float = false ->
  vectors_parallel math_cos (Array3 0 0 1) (Array3 0 0 1) log
    = (log ++ [Divide 1 1], Ok false) /\
  check_face_orientation_against_triangles math_cos (plate_with true (1, 3, 2))
    {| outer_wire := 0; inner_wires := []; surface_orientation := true |} 1 log
    = (log ++ [Divide 1 1; AssertTrue false], Raise AssertionError).
Proof.
  intros Hcos.
  assert (Hvp : vectors_parallel math_cos (Array3 0 0 1) (Array3 0 0 1) log
                = (log ++ [Divide 1 1], Ok false)).
  { rewrite vectors_parallel_nondegenerate by (vm_compute; reflexivity).
    rewrite <- Hcos. reflexivity. }
  split; [exact Hvp |].
  change (log ++ [Divide 1 1; AssertTrue false])
    with (log ++ ([Divide 1 1] ++ [AssertTrue false])).
  rewrite app_assoc.
  vm_compute in Hcos |- *.
  rewrite Hcos. reflexivity.
Qed.

End VectorsParallel.

Lemma identical_normals_not_parallel_witness :
  (1 <? cos_poly angle_tol_rands)%float = false /\
  vectors_parallel cos_poly (Array3 0 0 1) (Array3 0 0 1) []
    = ([Divide 1 1], Ok false).
Proof.
  split; [vm_compute; reflexivity |].
  apply (identical_normals_not_parallel cos_poly []).
  vm_compute; reflexivity.
Defined.

Lemma vectors_parallel_degenerate_witness :
  (np_linalg_norm (Array3 0 0 0) <? eps)%float = true /\
  vectors_parallel cos_poly (Array3 0 0 0) (Array3 0 0 1) [] = ([], Ok true).
Proof.
  split; [vm_compute; reflexivity |].
  apply (vectors_parallel_degenerate cos_poly (Array3 0 0 0) (Array3 0 0 1) []).
  left. vm_compute. reflexivity.
Defined.


(** ** The checks of the test *)

Section ChecksProperties.

Variable math_cos : float -> float.

(** C10: without a triangulation the check of a face returns at once and
    leaves nothing behind: no assertion was performed, whatever the
    face's flag is. *)
Theorem no_triangulation_no_assertion (body : Shape) (output_face : face_record)
    (face : Handle) (log : list event) :
  triangulation_of body face = None ->
  check_face_orientation_against_triangles math_cos body output_face face log
    = (log, Ok tt).
Proof.
  intros Hmesh. unfold check_face_orientation_against_triangles.
  rewrite Hmesh. reflexivity.
Qed.

(** The bodies that come before a failing one are processed, the failing
    one raises out of the loop, and what follows it is never reached. *)
Lemma build_dicts_from_stops (before : list Shape) (body : Shape)
    (after : list Shape) (index : nat) (log log1 log2 : list event) (e : exn) :
  build_dicts_from math_cos index before log = (log1, Ok tt) ->
  build_dict_for_body math_cos body true
    (log1 ++ [PrintBody (index + length before)]) = (log2, Raise e) ->
  build_dicts_from math_cos index (before ++ body :: after) log = (log2, Raise e).
Proof.
  revert index log.
  induction before as [| b bs IH]; intros index log Hbefore Hbody.
  - injection Hbefore as ->.
    replace (index + length (@nil Shape)) with index in Hbody by (simpl; lia).
    simpl. rewrite run_bind. simpl.
    rewrite run_bind, Hbody. reflexivity.
  - simpl in Hbefore |- *.
    rewrite run_bind in Hbefore |- *. simpl in Hbefore |- *.
    rewrite run_bind in Hbefore |- *.
    destruct (build_dict_for_body math_cos b true (log ++ [PrintBody index]))
      as [log' [[] | e']]; [| discriminate Hbefore].
    apply IH; [exact Hbefore |].
    replace (S index + length bs) with (index + length (b :: bs)) by (simpl; lia).
    exact Hbody.
Qed.

(** C9, as the code has it: a failure while building or checking one body
    of a file ends [build_dicts_for_file] with that error; the bodies
    after it are not processed. *)
Theorem batch_stops_at_first_failure (pathname : StepPath)
    (before : list Shape) (body : Shape) (after : list Shape)
    (log log0 log1 log2 : list event) (e : exn) :
  load_bodies_from_file pathname (log ++ [PrintProcessingFile (path_name pathname)])
    = (log0, Ok (before ++ body :: after)) ->
  build_dicts_from math_cos 0 before log0 = (log1, Ok tt) ->
  build_dict_for_body math_cos body true (log1 ++ [PrintBody (length before)])
    = (log2, Raise e) ->
  build_dicts_for_file math_cos pathname log = (log2, Raise e).
Proof.
  intros Hload Hbefore Hbody.
  unfold build_dicts_for_file.
  rewrite run_bind. simpl.
  rewrite run_bind, Hload.
  apply build_dicts_from_stops with (log1 := log1); assumption.
Qed.

End ChecksProperties.

Lemma no_triangulation_no_assertion_witness :
  triangulation_of plate 3 = None /\
  check_face_orientation_against_triangles cos_poly plate
    {| outer_wire := 0; inner_wires := []; surface_orientation := false |} 3 []
    = ([], Ok tt).
Proof.
  split; [reflexivity |].
  apply (no_triangulation_no_assertion cos_poly plate). reflexivity.
Defined.

(** C9 as stated fails: the first body of the file cannot be built, and
    the second body is never processed. *)
Lemma second_body_not_processed :
  exists log,
    build_dicts_for_file cos_poly two_bodies [] = (log, Raise MalformedShapeError) /\
    PrintBody 0 ∈ log /\ PrintBody 1 ∉ log.
Proof.
  exists [PrintProcessingFile (path_name two_bodies); AssertTrue true; PrintBody 0].
  split; [vm_compute; reflexivity |].
  split.
  - rewrite !elem_of_cons. auto.
  - intros Hin. repeat (apply elem_of_cons in Hin as [Heq | Hin]; [discriminate Heq |]).
    by apply elem_of_nil in Hin.
Qed.

Lemma batch_stops_at_first_failure_witness :
  build_dicts_for_file cos_poly two_bodies []
  = ([PrintProcessingFile (path_name two_bodies); AssertTrue true; PrintBody 0],
     Raise MalformedShapeError).
Proof.
  apply (batch_stops_at_first_failure cos_poly two_bodies [] empty_solid [plate]
           [] [PrintProcessingFile (path_name two_bodies); AssertTrue true]
           [PrintProcessingFile (path_name two_bodies); AssertTrue true]).
  - vm_compute; reflexivity.
  - reflexivity.
  - vm_compute; reflexivity.
Defined.

(** ** Traversals *)

Lemma traverse_Forall2 {A B : Type} (f : A -> result B) (l : list A) (rs : list B) :
  traverse f l = Ok rs <-> Forall2 (fun x r => f x = Ok r) l rs.
Proof.
  revert rs. induction l as [| x l IH]; intros rs; simpl.
  - split.
    + intros [= <-]. constructor.
    + intros H. inversion H. reflexivity.
  - unfold mbind, result_bind, mret, result_ret.
    destruct (f x) as [y | e] eqn:Hfx.
    + destruct (traverse f l) as [ys | e] eqn:Hl.
      * split.
        -- intros [= <-]. constructor; [exact Hfx | by apply IH].
        -- intros H. inversion H as [| ? r ? rs' Hr Hrs]; subst.
           apply IH in Hrs. congruence.
      * split; [discriminate |].
        intros H. inversion H as [| ? r ? rs' Hr Hrs]; subst.
        apply IH in Hrs. discriminate Hrs.
    + split; [discriminate |].
      intros H. inversion H; subst. congruence.
Qed.

Lemma traverse_length {A B : Type} (f : A -> result B) (l : list A) (rs : list B) :
  traverse f l = Ok rs -> length rs = length l.
Proof.
  intros H. apply traverse_Forall2, Forall2_length in H. symmetry. exact H.
Qed.

Lemma traverse_lookup {A B : Type} (f : A -> result B) (l : list A) (rs : list B)
    (i : nat) (x : A) :
  traverse f l = Ok rs -> l !! i = Some x ->
  exists r, f x = Ok r /\ rs !! i = Some r.
Proof.
  intros H Hx. apply traverse_Forall2 in H.
  destruct (Forall2_lookup_l _ _ _ _ _ H Hx) as (r & Hr & Hfx).
  exists r. split; assumption.
Qed.

Lemma traverse_fmap {A B C : Type} (f : A -> result B) (g : B -> C)
    (l : list A) (rs : list B) :
  traverse f l = Ok rs -> traverse (fun x => g <$> f x) l = Ok (g <$> rs).
Proof.
  rewrite !traverse_Forall2. intros H.
  apply Forall2_fmap_r.
  eapply Forall2_impl; [exact H |].
  intros x r Hr. simpl. rewrite Hr. reflexivity.
Qed.

Lemma pass_first_seen {R : Type} (f : Handle -> result R) (seen : gset Handle)
    (l : list Handle) :
  pass f seen l = traverse f (first_seen seen l).
Proof.
  revert seen. induction l as [| h l IH]; intros seen; simpl; [reflexivity |].
  destruct (decide (h ∈ seen)); simpl.
  - apply IH.
  - rewrite IH. reflexivity.
Qed.

(** ** First occurrences *)

Lemma elem_of_first_seen (seen : gset Handle) (l : list Handle) (x : Handle) :
  x ∈ first_seen seen l <-> x ∈ l /\ x ∉ seen.
Proof.
  revert seen. induction l as [| h l IH]; intros seen; simpl.
  - rewrite elem_of_nil. tauto.
  - destruct (decide (h ∈ seen)) as [Hin | Hnin].
    + rewrite IH, elem_of_cons. split.
      * intros [? ?]. auto.
      * intros [[-> | ?] ?]; [contradiction | auto].
    + rewrite !elem_of_cons, IH. split.
      * intros [-> | [? Hx]]; [auto |].
        split; [auto |].
        intros Hs. apply Hx, elem_of_union. auto.
      * intros [[-> | Hx] Hs]; [auto |].
        destruct (decide (x = h)) as [-> | Hne]; [auto |].
        right. split; [exact Hx |].
        intros Hu. apply elem_of_union in Hu as [Hu | Hu]; [| contradiction].
        apply elem_of_singleton in Hu. contradiction.
Qed.

Lemma first_seen_NoDup_id (seen : gset Handle) (l : list Handle) :
  NoDup l -> (forall x, x ∈ l -> x ∉ seen) -> first_seen seen l = l.
Proof.
  revert seen. induction l as [| h l IH]; intros seen Hnd Hfresh; simpl.
  - reflexivity.
  - apply NoDup_cons in Hnd as [Hh Hnd].
    destruct (decide (h ∈ seen)) as [Hin | _].
    + exfalso. apply (Hfresh h); [apply elem_of_cons; auto | exact Hin].
    + f_equal. apply IH; [exact Hnd |].
      intros x Hx Hin. apply elem_of_union in Hin as [Hin | Hin].
      * apply elem_of_singleton in Hin. subst x. contradiction.
      * apply (Hfresh x); [apply elem_of_cons; auto | exact Hin].
Qed.

Lemma length_first_seen_le (seen : gset Handle) (l : list Handle) :
  length (first_seen seen l) <= length l.
Proof.
  revert seen. induction l as [| h l IH]; intros seen; simpl; [lia |].
  destruct (decide (h ∈ seen)); simpl.
  - specialize (IH seen). lia.
  - specialize (IH ({[h]} ∪ seen)). lia.
Qed.

(** ** The mapper's tables *)

Lemma append_enumerates (tbl : gmap Handle nat) (ds : list Handle) (h : Handle) :
  enumerates tbl ds -> tbl !! h = None ->
  enumerates (<[h := size tbl]> tbl) (ds ++ [h]).
Proof.
  intros [Hsize Henum] Hnone. split.
  - rewrite map_size_insert_None by exact Hnone.
    rewrite length_app. simpl. lia.
  - intros h' i. rewrite lookup_snoc_Some, Hsize.
    destruct (decide (h = h')) as [<- | Hne].
    + rewrite lookup_insert_eq. split.
      * intros [= <-]. right. auto.
      * intros [[_ Hds] | [-> _]]; [| reflexivity].
        apply Henum in Hds. congruence.
    + rewrite lookup_insert_ne by exact Hne. rewrite Henum. split.
      * intros Hds. left. split; [| exact Hds].
        apply lookup_lt_Some in Hds. exact Hds.
      * intros [[_ Hds] | [_ Heq]]; [exact Hds | contradiction].
Qed.

Lemma foldl_append_enumerates (l : list Handle) (tbl : gmap Handle nat)
    (ds : list Handle) :
  enumerates tbl ds ->
  enumerates (foldl EntityMapper.append tbl l) (ds ++ first_seen (dom tbl) l).
Proof.
  revert tbl ds. induction l as [| h l IH]; intros tbl ds Henum; simpl.
  - rewrite app_nil_r. exact Henum.
  - unfold EntityMapper.append at 2.
    destruct (tbl !! h) as [i |] eqn:Hh.
    + destruct (decide (h ∈ dom tbl)) as [_ | Hnin].
      * apply IH. exact Henum.
      * exfalso. apply Hnin. apply elem_of_dom. eauto.
    + destruct (decide (h ∈ dom tbl)) as [Hin | _].
      * apply elem_of_dom in Hin as [i Hi]. congruence.
      * rewrite <- dom_insert_L with (x := size tbl).
        rewrite cons_middle, app_assoc.
        apply IH. apply append_enumerates; assumption.
Qed.

Lemma append_all_enumerates (l : list Handle) :
  enumerates (EntityMapper.append_all l) (first_seen ∅ l).
Proof.
  unfold EntityMapper.append_all.
  rewrite <- (dom_empty_L (D := gset Handle) (A := nat)).
  apply (foldl_append_enumerates l ∅ []).
  split; [reflexivity |].
  intros h i. rewrite lookup_empty, lookup_nil. split; discriminate.
Qed.

Lemma new_enumerates (s : Shape) (k : kind) :
  enumerates (EntityMapper.map_of (EntityMapper.new s) k) (first_seen ∅ (explore s k)).
Proof. destruct k; apply append_all_enumerates. Qed.

(** ** The dictionary *)

Lemma build_dict_inv (m : EntityMapper.t) (s : Shape) (out : dict) :
  TopologyDictBuilder.build_dict_for_body m s = Ok out ->
  shells_of s <> [] /\
  traverse (vertex_record s) (first_seen ∅ (explore s Vertex)) = Ok (vertices out) /\
  traverse (edge_record_of m s) (first_seen ∅ (explore s Edge)) = Ok (edges out) /\
  traverse (wire_record_of m s) (first_seen ∅ (explore s Wire)) = Ok (wires out) /\
  traverse (face_record_of m s) (first_seen ∅ (explore s Face)) = Ok (faces out) /\
  traverse (shell_record_of m s) (first_seen ∅ (explore s Shell)) = Ok (shells out).
Proof.
  unfold TopologyDictBuilder.build_dict_for_body.
  destruct (shells_of s) as [| sh0 shs] eqn:Hshells; [discriminate |].
  rewrite !pass_first_seen.
  unfold mbind, result_bind, mret, result_ret.
  destruct (traverse (vertex_record s) _) as [vs | ?]; [| discriminate].
  destruct (traverse (edge_record_of m s) _) as [es | ?]; [| discriminate].
  destruct (traverse (wire_record_of m s) _) as [ws | ?]; [| discriminate].
  destruct (traverse (face_record_of m s) _) as [fs | ?]; [| discriminate].
  destruct (traverse (shell_record_of m s) _) as [ss | ?]; [| discriminate].
  intros [= <-]. simpl. repeat split; congruence.
Qed.

Lemma build_dict_records (m : EntityMapper.t) (s : Shape) (out : dict) (k : kind) :
  TopologyDictBuilder.build_dict_for_body m s = Ok out ->
  traverse (record_of m s k) (first_seen ∅ (explore s k)) = Ok (records out k).
Proof.
  intros Hbuild.
  destruct (build_dict_inv m s out Hbuild) as (_ & Hv & He & Hw & Hf & Hs).
  destruct k; simpl records; unfold record_of; apply traverse_fmap; assumption.
Qed.

(** What a shell record holds of the kernel's face uses. *)
Lemma shell_record_of_inv (m : EntityMapper.t) (s : Shape) (h : Handle)
    (r : shell_record) :
  shell_record_of m s h = Ok r ->
  faces_of s h <> [] /\
  Forall2 (fun (u : Handle * bool) (fu : face_use) =>
             EntityMapper.index_of m Face u.1 = Ok (face_index fu) /\
             face_orientation_wrt_shell fu = u.2)
          (faces_of s h) (shell_faces r).
Proof.
  unfold shell_record_of.
  destruct (faces_of s h) as [| u us] eqn:Hus; [discriminate |].
  unfold mbind at 1, result_bind at 1.
  destruct (traverse _ (u :: us)) as [fs |] eqn:Hfs; [| discriminate].
  intros [= <-]. simpl. split; [discriminate |].
  apply traverse_Forall2 in Hfs.
  eapply Forall2_impl; [exact Hfs |].
  intros u' fu. simpl. unfold mbind, result_bind, mret, result_ret.
  destruct (EntityMapper.index_of m Face u'.1); [| discriminate].
  intros [= <-]. simpl. auto.
Qed.

Lemma length_flat_map {A B : Type} (f : A -> list B) (l : list A) :
  length (flat_map f l) = sum_list ((fun x => length (f x)) <$> l).
Proof.
  induction l as [| x l IH]; simpl; [reflexivity |].
  rewrite length_app, IH. reflexivity.
Qed.

(** The shell records have as many face uses as the kernel reports for
    the shells they were written for. *)
Lemma shell_records_face_uses (m : EntityMapper.t) (s : Shape)
    (ds : list Handle) (rs : list shell_record) :
  traverse (shell_record_of m s) ds = Ok rs ->
  sum_list ((fun sh => length (shell_faces sh)) <$> rs)
  = length (flat_map (fun sh => (faces_of s sh).*1) ds).
Proof.
  rewrite traverse_Forall2. intros H.
  induction H as [| h r ds rs Hr _ IH]; simpl; [reflexivity |].
  rewrite length_app, <- IH. f_equal.
  apply shell_record_of_inv in Hr as [_ Huses].
  apply Forall2_length in Huses.
  rewrite length_fmap. symmetry. exact Huses.
Qed.

Lemma NoDup_flat_map_nonempty {A : Type} (f : A -> list Handle) (l : list A) :
  NoDup (flat_map f l) -> (forall x, x ∈ l -> f x <> []) -> NoDup l.
Proof.
  induction l as [| x l IH]; simpl; intros Hnd Hne; [constructor |].
  apply NoDup_app in Hnd as (_ & Hdisj & Hnd).
  apply NoDup_cons. split.
  - intros Hx.
    destruct (f x) as [| y ys] eqn:Hfx.
    + apply (Hne x); [apply elem_of_cons; auto | exact Hfx].
    + apply (Hdisj y); [apply elem_of_cons; auto |].
      apply list_elem_of_In, in_flat_map. exists x.
      split; apply list_elem_of_In; [exact Hx |].
      rewrite Hfx. apply elem_of_cons. auto.
  - apply IH; [exact Hnd |].
    intros z Hz. apply Hne, elem_of_cons. auto.
Qed.

(** C2: in the dictionary of a manifold solid the shell records hold, all
    together, as many face uses as the dictionary has faces. *)
Theorem manifold_face_uses_equal_faces (m : EntityMapper.t) (s : Shape) (out : dict) :
  manifold s ->
  TopologyDictBuilder.build_dict_for_body m s = Ok out ->
  sum_list ((fun shell => length (shell_faces shell)) <$> shells out)
  = length (faces out).
Proof.
  intros Hman Hbuild.
  destruct (build_dict_inv m s out Hbuild) as (_ & _ & _ & _ & Hf & Hs).
  assert (Hshells : NoDup (shells_of s)).
  { apply (NoDup_flat_map_nonempty (fun sh => (faces_of s sh).*1));
      [exact Hman |].
    intros sh Hsh Hempty.
    assert (Hseen : sh ∈ first_seen ∅ (shells_of s)).
    { apply elem_of_first_seen. split; [exact Hsh | apply not_elem_of_empty]. }
    apply list_elem_of_lookup in Hseen as [i Hi].
    destruct (traverse_lookup _ _ _ _ _ Hs Hi) as (r & Hr & _).
    apply shell_record_of_inv in Hr as [Hne _].
    apply Hne. destruct (faces_of s sh); [reflexivity | discriminate Hempty]. }
  simpl explore in Hf, Hs. unfold shell_seq in Hs.
  rewrite first_seen_NoDup_id in Hs
    by (try exact Hshells; intros x _; apply not_elem_of_empty).
  rewrite first_seen_NoDup_id in Hf
    by (try exact Hman; intros x _; apply not_elem_of_empty).
  rewrite (shell_records_face_uses m s _ _ Hs).
  apply traverse_length in Hf. rewrite Hf. reflexivity.
Qed.

(** C5: the list of a kind holds at position [i] the record of the entity
    the mapper numbers [i], and every position holds the record of such
    an entity; for faces, the record found at the mapper's index carries
    the face's own flag. *)
Theorem list_position_is_mapper_index (s : Shape) (out : dict) :
  TopologyDictBuilder.build_dict_for_body (EntityMapper.new s) s = Ok out ->
  (forall k h i,
      EntityMapper.index_of (EntityMapper.new s) k h = Ok i ->
      exists r, record_of (EntityMapper.new s) s k h = Ok r /\
                records out k !! i = Some r) /\
  (forall k i r,
      records out k !! i = Some r ->
      exists h, EntityMapper.index_of (EntityMapper.new s) k h = Ok i /\
                record_of (EntityMapper.new s) s k h = Ok r) /\
  (forall face face_index,
      EntityMapper.index_of (EntityMapper.new s) Face face = Ok face_index ->
      exists output_face,
        faces out !! face_index = Some output_face /\
        face_record_of (EntityMapper.new s) s face = Ok output_face /\
        surface_orientation output_face = surface_orientation_of s face).
Proof.
  intros Hbuild.
  assert (Hfwd : forall k h i,
             EntityMapper.index_of (EntityMapper.new s) k h = Ok i ->
             exists r, record_of (EntityMapper.new s) s k h = Ok r /\
                       records out k !! i = Some r).
  { intros k h i Hidx.
    unfold EntityMapper.index_of in Hidx.
    destruct (EntityMapper.map_of (EntityMapper.new s) k !! h) as [i' |] eqn:Hm;
      [| discriminate].
    injection Hidx as ->.
    apply (new_enumerates s k) in Hm.
    exact (traverse_lookup _ _ _ _ _ (build_dict_records _ s out k Hbuild) Hm). }
  split; [exact Hfwd |]. split.
  - intros k i r Hr.
    pose proof (build_dict_records _ s out k Hbuild) as Hrecs.
    apply traverse_Forall2 in Hrecs.
    destruct (Forall2_lookup_r _ _ _ _ _ Hrecs Hr) as (h & Hh & Hrec).
    exists h. split; [| exact Hrec].
    apply (new_enumerates s k) in Hh.
    unfold EntityMapper.index_of. rewrite Hh. reflexivity.
  - intros face i Hidx.
    destruct (Hfwd Face face i Hidx) as (r & Hrec & Hr).
    simpl in Hrec, Hr.
    destruct (face_record_of (EntityMapper.new s) s face) as [fr |] eqn:Hfr;
      [| discriminate].
    injection Hrec as <-.
    rewrite list_lookup_fmap in Hr.
    destruct (faces out !! i) as [fr' |]; [| discriminate].
    injection Hr as ->.
    exists fr. repeat split.
    unfold face_record_of in Hfr.
    destruct (wires_of s face) as [| w ws]; [discriminate |].
    unfold mbind, result_bind, mret, result_ret in Hfr.
    destruct (EntityMapper.index_of _ Wire w); [| discriminate].
    destruct (traverse _ ws); [| discriminate].
    injection Hfr as <-. reflexivity.
Qed.

Lemma plate_manifold : manifold plate.
Proof.
  unfold manifold. apply (bool_decide_unpack _). vm_compute. exact I.
Qed.

Lemma plate_builds :
  TopologyDictBuilder.build_dict_for_body (EntityMapper.new plate) plate
  = Ok plate_dict.
Proof. vm_compute. reflexivity. Qed.

Lemma manifold_face_uses_equal_faces_witness :
  manifold plate /\
  TopologyDictBuilder.build_dict_for_body (EntityMapper.new plate) plate
  = Ok plate_dict /\
  sum_list ((fun shell => length (shell_faces shell)) <$> shells plate_dict)
  = length (faces plate_dict).
Proof.
  split; [exact plate_manifold |].
  split; [exact plate_builds |].
  exact (manifold_face_uses_equal_faces (EntityMapper.new plate) plate plate_dict
           plate_manifold plate_builds).
Defined.

Lemma list_position_is_mapper_index_witness :
  TopologyDictBuilder.build_dict_for_body (EntityMapper.new plate) plate
  = Ok plate_dict /\
  exists output_face,
    faces plate_dict !! 1 = Some output_face /\
    face_record_of (EntityMapper.new plate) plate 2 = Ok output_face /\
    surface_orientation output_face = surface_orientation_of plate 2.
Proof.
  split; [exact plate_builds |].
  apply (list_position_is_mapper_index plate plate_dict plate_builds).
  vm_compute. reflexivity.
Defined.

(** ** What the manifold check of the test establishes *)

Lemma for_each_assert_passes (l : list face_use) (log log' : list event) :
  for_each (fun face => assertTrue (face_orientation_wrt_shell face)) l log
    = (log', Ok tt) ->
  forall face, face ∈ l -> face_orientation_wrt_shell face = true.
Proof.
  revert log. induction l as [| fu l IH]; intros log Hrun face Hface.
  - by apply elem_of_nil in Hface.
  - simpl in Hrun. rewrite run_bind in Hrun.
    destruct (face_orientation_wrt_shell fu) eqn:Hfu.
    + rewrite run_assertTrue_true in Hrun.
      apply elem_of_cons in Hface as [-> | Hface]; [exact Hfu |].
      exact (IH _ Hrun face Hface).
    + rewrite run_assertTrue_false in Hrun. discriminate Hrun.
Qed.

Lemma count_shell_faces_passes (shs : list shell_record) (total n : nat)
    (log log' : list event) :
  count_shell_faces shs total log = (log', Ok n) ->
  n = total + sum_list ((fun shell => length (shell_faces shell)) <$> shs) /\
  forall shell face, shell ∈ shs -> face ∈ shell_faces shell ->
                     face_orientation_wrt_shell face = true.
Proof.
  revert total log. induction shs as [| shell shs IH]; intros total log Hrun.
  - injection Hrun as _ <-. simpl. split; [lia |].
    intros shell face Hshell. by apply elem_of_nil in Hshell.
  - simpl in Hrun. rewrite run_bind in Hrun.
    destruct (for_each _ (shell_faces shell) log) as [log1 [[] | e]] eqn:Hloop;
      [| discriminate Hrun].
    destruct (IH _ _ Hrun) as [-> Hflags].
    split; [rewrite fmap_cons; simpl; lia |].
    intros shell' face Hshell Hface.
    apply elem_of_cons in Hshell as [-> | Hshell].
    + exact (for_each_assert_passes _ _ _ Hloop face Hface).
    + exact (Hflags shell' face Hshell Hface).
Qed.

(** A dictionary that passes [check_face_orientation_wrt_shell] has only
    true flags and as many face uses as faces. *)
Lemma check_face_orientation_wrt_shell_sound (output : dict)
    (log log' : list event) :
  check_face_orientation_wrt_shell output log = (log', Ok tt) ->
  total_face_uses output = length (faces output) /\
  forall shell face, shell ∈ shells output -> face ∈ shell_faces shell ->
                     face_orientation_wrt_shell face = true.
Proof.
  unfold check_face_orientation_wrt_shell. rewrite run_bind.
  destruct (count_shell_faces (shells output) 0 log) as [log1 [n | e]] eqn:Hcount;
    [| discriminate].
  apply count_shell_faces_passes in Hcount as [-> Hflags].
  destruct (bool_decide _) eqn:Hdec.
  - intros _. apply bool_decide_eq_true in Hdec.
    split; [exact Hdec | exact Hflags].
  - rewrite run_assertTrue_false. discriminate.
Qed.

(** ** Shared faces *)

Lemma first_seen_full_length (seen : gset Handle) (l : list Handle) :
  length (first_seen seen l) = length l ->
  NoDup l /\ forall x, x ∈ l -> x ∉ seen.
Proof.
  revert seen. induction l as [| h l IH]; intros seen Hlen; simpl in Hlen.
  - split; [constructor |]. intros x Hx. by apply elem_of_nil in Hx.
  - destruct (decide (h ∈ seen)) as [Hin | Hnin].
    + pose proof (length_first_seen_le seen l). lia.
    + simpl in Hlen. injection Hlen as Hlen.
      destruct (IH _ Hlen) as [Hnd Hfresh]. split.
      * apply NoDup_cons. split; [| exact Hnd].
        intros Hh. apply (Hfresh h Hh), elem_of_union. left.
        by apply elem_of_singleton.
      * intros x Hx. apply elem_of_cons in Hx as [-> | Hx]; [exact Hnin |].
        intros Hs. apply (Hfresh x Hx), elem_of_union. auto.
Qed.

(** A face used by two shells, or twice by one, makes the face uses
    outnumber the faces of the dictionary. *)
Lemma shared_face_more_uses_than_faces (m : EntityMapper.t) (s : Shape) (out : dict) :
  NoDup (shells_of s) ->
  ~ manifold s ->
  TopologyDictBuilder.build_dict_for_body m s = Ok out ->
  length (faces out) < total_face_uses out.
Proof.
  intros Hshells Hshared Hbuild.
  destruct (build_dict_inv m s out Hbuild) as (_ & _ & _ & _ & Hf & Hs).
  simpl explore in Hf, Hs. unfold shell_seq in Hs.
  rewrite first_seen_NoDup_id in Hs
    by (try exact Hshells; intros x _; apply not_elem_of_empty).
  unfold total_face_uses. rewrite (shell_records_face_uses m s _ _ Hs).
  apply traverse_length in Hf. rewrite Hf.
  pose proof (length_first_seen_le ∅ (face_seq s)) as Hle.
  fold (shell_seq s). fold (face_seq s).
  destruct (decide (length (first_seen ∅ (face_seq s)) = length (face_seq s)))
    as [Heq | Hne]; [| lia].
  exfalso. apply Hshared. exact (proj1 (first_seen_full_length _ _ Heq)).
Qed.

Example two_cells_more_uses_than_faces :
  exists out,
    TopologyDictBuilder.build_dict_for_body (EntityMapper.new two_cells) two_cells
    = Ok out /\
    length (faces out) = 3 /\ total_face_uses out = 4.
Proof.
  eexists. split; [vm_compute; reflexivity |].
  split; reflexivity.
Qed.

(** ** The body that is not expected to be manifold *)

(** With [expect_manifold] false the test asserts that meshing is done and
    nothing else: no face use is looked at. *)
Lemma check_output_not_manifold (math_cos : float -> float) (output : dict)
    (body : Shape) (entity_mapper : EntityMapper.t) (log : list event) :
  check_output_for_body math_cos output body entity_mapper false log
  = assertTrue (mesh_is_done body) log.
Proof.
  unfold check_output_for_body. rewrite run_bind.
  destruct (mesh_is_done body).
  - rewrite run_assertTrue_true. reflexivity.
  - rewrite run_assertTrue_false. reflexivity.
Qed.

Example two_cells_not_checked :
  build_dict_for_non_manifold_body cos_poly
    {| HasErrors := false; builder_Shape := two_cells |} []
  = ([AssertTrue true; AssertTrue true], Ok tt).
Proof. vm_compute. reflexivity. Qed.

(** * Further properties of the test's code *)

(** ** Loops *)

Lemma run_emit (e : event) (log : list event) :
  emit e log = (log ++ [e], Ok tt).
Proof. reflexivity. Qed.

Lemma for_each_app {A : Type} (body : A -> Test unit) (l1 l2 : list A)
    (log : list event) :
  for_each body (l1 ++ l2) log =
  match for_each body l1 log with
  | (log1, Ok _) => for_each body l2 log1
  | (log1, Raise e) => (log1, Raise e)
  end.
Proof.
  revert log. induction l1 as [| x l1 IH]; intros log; simpl.
  - reflexivity.
  - rewrite !run_bind.
    destruct (body x log) as [log0 [[] | e]]; [apply IH | reflexivity].
Qed.

Lemma for_each_stops {A : Type} (body : A -> Test unit) (before : list A) (x : A)
    (after : list A) (log log1 log2 : list event) (e : exn) :
  for_each body before log = (log1, Ok tt) ->
  body x log1 = (log2, Raise e) ->
  for_each body (before ++ x :: after) log = (log2, Raise e).
Proof.
  intros Hbefore Hx. rewrite for_each_app, Hbefore.
  simpl. rewrite run_bind, Hx. reflexivity.
Qed.

(** ** [check_face_orientation_wrt_shell] *)

Lemma for_each_assert_all_true (l : list face_use) (log : list event) :
  (forall face, face ∈ l -> face_orientation_wrt_shell face = true) ->
  for_each (fun face => assertTrue (face_orientation_wrt_shell face)) l log
  = (log ++ replicate (length l) (AssertTrue true), Ok tt).
Proof.
  revert log. induction l as [| fu l IH]; intros log Hall; simpl.
  - rewrite app_nil_r. reflexivity.
  - rewrite run_bind, (Hall fu) by (apply elem_of_cons; auto).
    rewrite run_assertTrue_true, IH by (intros face Hface; apply Hall, elem_of_cons; auto).
    rewrite <- app_assoc. reflexivity.
Qed.

Lemma count_shell_faces_all_true (shs : list shell_record) (total : nat)
    (log : list event) :
  (forall shell face, shell ∈ shs -> face ∈ shell_faces shell ->
                      face_orientation_wrt_shell face = true) ->
  count_shell_faces shs total log
  = (log ++ replicate (sum_list ((fun shell => length (shell_faces shell)) <$> shs))
                      (AssertTrue true),
     Ok (total + sum_list ((fun shell => length (shell_faces shell)) <$> shs))).
Proof.
  revert total log. induction shs as [| shell shs IH]; intros total log Hall.
  - simpl. rewrite app_nil_r, Nat.add_0_r. reflexivity.
  - simpl count_shell_faces. rewrite run_bind.
    rewrite for_each_assert_all_true
      by (intros face Hface; apply (Hall shell); [apply elem_of_cons; auto | exact Hface]).
    rewrite IH
      by (intros sh face Hsh Hface; apply (Hall sh); [apply elem_of_cons; auto | exact Hface]).
    rewrite fmap_cons. simpl sum_list.
    rewrite replicate_add, <- app_assoc, Nat.add_assoc. reflexivity.
Qed.

Lemma count_shell_faces_app (before after : list shell_record) (total : nat)
    (log : list event) :
  count_shell_faces (before ++ after) total log =
  match count_shell_faces before total log with
  | (log1, Ok n) => count_shell_faces after n log1
  | (log1, Raise e) => (log1, Raise e)
  end.
Proof.
  revert total log. induction before as [| shell before IH]; intros total log; simpl.
  - reflexivity.
  - rewrite !run_bind.
    destruct (for_each _ (shell_faces shell) log) as [log0 [[] | e]];
      [apply IH | reflexivity].
Qed.

(** X1: the manifold check passes exactly on the dictionaries whose face
    uses are all outward and as many as the faces; a passing run performs
    one assertion per face use and one for the count, all true. *)
Theorem check_face_orientation_wrt_shell_passes_iff (output : dict)
    (log log' : list event) :
  check_face_orientation_wrt_shell output log = (log', Ok tt) <->
  (forall shell face, shell ∈ shells output -> face ∈ shell_faces shell ->
                      face_orientation_wrt_shell face = true) /\
  total_face_uses output = length (faces output) /\
  log' = log ++ replicate (S (total_face_uses output)) (AssertTrue true).
Proof.
  split.
  - intros Hrun.
    destruct (check_face_orientation_wrt_shell_sound output log log' Hrun)
      as [Hcount Hflags].
    split; [exact Hflags |]. split; [exact Hcount |].
    unfold check_face_orientation_wrt_shell in Hrun.
    rewrite run_bind, count_shell_faces_all_true in Hrun by exact Hflags.
    fold (total_face_uses output) in Hrun. simpl in Hrun.
    rewrite Hcount, bool_decide_eq_true_2, run_assertTrue_true in Hrun by reflexivity.
    injection Hrun as <-.
    rewrite Hcount, replicate_S_end, app_assoc. reflexivity.
  - intros (Hflags & Hcount & ->).
    rewrite replicate_S_end, app_assoc.
    unfold check_face_orientation_wrt_shell.
    rewrite run_bind, count_shell_faces_all_true by exact Hflags.
    fold (total_face_uses output). simpl.
    rewrite Hcount, bool_decide_eq_true_2, run_assertTrue_true by reflexivity.
    reflexivity.
Qed.

(** X2: the first inward face use ends the manifold check with an
    AssertionError: the uses after it are not asserted and the count of
    face uses is never compared with the number of faces. *)
Theorem check_face_orientation_wrt_shell_first_inward (output : dict)
    (before : list shell_record) (shell : shell_record) (after : list shell_record)
    (uses : list face_use) (bad : face_use) (rest : list face_use)
    (log : list event) :
  shells output = before ++ shell :: after ->
  (forall sh face, sh ∈ before -> face ∈ shell_faces sh ->
                   face_orientation_wrt_shell face = true) ->
  shell_faces shell = uses ++ bad :: rest ->
  (forall face, face ∈ uses -> face_orientation_wrt_shell face = true) ->
  face_orientation_wrt_shell bad = false ->
  check_face_orientation_wrt_shell output log
  = (log ++ replicate (sum_list ((fun sh => length (shell_faces sh)) <$> before)
                       + length uses) (AssertTrue true)
         ++ [AssertTrue false],
     Raise AssertionError).
Proof.
  intros Hshells Hbefore Hshell Huses Hbad.
  unfold check_face_orientation_wrt_shell.
  rewrite run_bind, Hshells, count_shell_faces_app.
  rewrite count_shell_faces_all_true by exact Hbefore.
  simpl count_shell_faces. rewrite run_bind, Hshell, for_each_app.
  rewrite for_each_assert_all_true by exact Huses.
  simpl for_each. rewrite run_bind, Hbad, run_assertTrue_false.
  rewrite replicate_add, <- !app_assoc. reflexivity.
Qed.

Lemma check_face_orientation_wrt_shell_first_inward_witness :
  check_face_orientation_wrt_shell inward_dict []
  = ([AssertTrue true; AssertTrue false], Raise AssertionError).
Proof.
  apply (check_face_orientation_wrt_shell_first_inward inward_dict []
           {| shell_faces :=
                [ {| face_index := 0; face_orientation_wrt_shell := true |};
                  {| face_index := 1; face_orientation_wrt_shell := false |};
                  {| face_index := 2; face_orientation_wrt_shell := true |} ] |} []
           [ {| face_index := 0; face_orientation_wrt_shell := true |} ]
           {| face_index := 1; face_orientation_wrt_shell := false |}
           [ {| face_index := 2; face_orientation_wrt_shell := true |} ] []).
  - reflexivity.
  - intros sh face Hsh. by apply elem_of_nil in Hsh.
  - reflexivity.
  - intros face Hface. apply list_elem_of_singleton in Hface. subst face. reflexivity.
  - reflexivity.
Defined.

(** ** [load_bodies_from_file] *)

Lemma transfer_roots_run (rs : list (option Shape)) (nr : nat) (shapes : list Shape)
    (log : list event) :
  transfer_roots rs nr shapes log
  = (log ++ no_shape_report rs nr, Ok (shapes ++ transferred rs)).
Proof.
  revert nr shapes. induction rs as [| [sh |] rest IH]; intros nr shapes.
  - simpl. unfold no_shape_report. simpl. rewrite !app_nil_r. reflexivity.
  - simpl transfer_roots. rewrite IH.
    unfold no_shape_report. simpl transferred. simpl length.
    rewrite <- app_assoc. simpl.
    rewrite ?Nat.add_succ_r.
    destruct (decide (length (transferred rest) = length rest)) as [Heq | Hne].
    + rewrite decide_True by (f_equal; exact Heq). reflexivity.
    + rewrite decide_False by (intros [= Heq]; contradiction). reflexivity.
  - simpl transfer_roots. rewrite run_bind, run_emit.
    unfold no_shape_report. simpl. rewrite Nat.add_0_r, app_nil_r. reflexivity.
Qed.

Lemma transferred_all (bodies : list Shape) :
  transferred (Some <$> bodies) = bodies.
Proof.
  induction bodies as [| b bodies IH]; simpl; [reflexivity |].
  f_equal. exact IH.
Qed.

Lemma transferred_until_raise (bodies : list Shape) (rest : list (option Shape)) :
  transferred ((Some <$> bodies) ++ None :: rest) = bodies.
Proof.
  induction bodies as [| b bodies IH]; simpl; [reflexivity |].
  f_equal. exact IH.
Qed.

Lemma load_bodies_from_file_swallows_run (pathname : StepPath) (log : list event) :
  path_exists pathname = true ->
  read_done pathname = true ->
  load_bodies_from_file pathname log
  = (log ++ AssertTrue true :: no_shape_report (roots pathname) 1,
     Ok (transferred (roots pathname))).
Proof.
  intros Hexists Hdone. unfold load_bodies_from_file.
  rewrite run_bind, Hexists, run_assertTrue_true, Hdone.
  rewrite transfer_roots_run, <- app_assoc. reflexivity.
Qed.

(** X3: for a file that is there and that the reader reads, loading never
    raises: it returns the shapes of the roots up to the first one whose
    transfer raises, in order; that exception is swallowed, reported by
    one printed line with the number of the root, and the roots after it
    are dropped. *)
Theorem load_bodies_from_file_swallows (pathname : StepPath) (log : list event) :
  path_exists pathname = true ->
  read_done pathname = true ->
  load_bodies_from_file pathname log
  = (log ++ AssertTrue true :: no_shape_report (roots pathname) 1,
     Ok (transferred (roots pathname))).
Proof.
  intros Hexists Hdone.
  exact (load_bodies_from_file_swallows_run pathname log Hexists Hdone).
Qed.

Lemma load_bodies_from_file_swallows_witness :
  load_bodies_from_file truncated_file []
  = ([AssertTrue true; PrintNoShape 2], Ok [plate]).
Proof.
  apply (load_bodies_from_file_swallows truncated_file []); reflexivity.
Defined.

(** X4: a path with no file, or a file the reader cannot read, raises an
    AssertionError; no root is transferred and no shape is reported,
    whatever the roots are. *)
Theorem load_bodies_from_file_unreadable (pathname : StepPath) (log : list event) :
  path_exists pathname = false \/ read_done pathname = false ->
  load_bodies_from_file pathname log
  = (log ++ [AssertTrue (path_exists pathname)], Raise AssertionError).
Proof.
  intros Hbad. unfold load_bodies_from_file. rewrite run_bind.
  destruct (path_exists pathname).
  - destruct Hbad as [Hbad | Hbad]; [discriminate Hbad |].
    rewrite run_assertTrue_true, Hbad. reflexivity.
  - rewrite run_assertTrue_false. reflexivity.
Qed.

Lemma load_bodies_from_file_unreadable_witness :
  load_bodies_from_file missing_file [] = ([AssertTrue false], Raise AssertionError).
Proof.
  apply (load_bodies_from_file_unreadable missing_file []). left. reflexivity.
Defined.

(** ** [build_dicts_for_file] *)

Section FileProperties.

Variable math_cos : float -> float.

(** X5: when the transfer of a root raises, the file is processed as if
    it ended there: the bodies before that root are built and checked,
    the roots after it are never looked at, and the failure itself does
    not fail the test. *)
Theorem failed_transfer_truncates_file (pathname : StepPath) (bodies : list Shape)
    (rest : list (option Shape)) (log : list event) :
  path_exists pathname = true ->
  read_done pathname = true ->
  roots pathname = (Some <$> bodies) ++ None :: rest ->
  build_dicts_for_file math_cos pathname log
  = build_dicts_from math_cos 0 bodies
      (log ++ [PrintProcessingFile (path_name pathname); AssertTrue true;
               PrintNoShape (S (length bodies))]).
Proof.
  intros Hexists Hdone Hroots. unfold build_dicts_for_file.
  rewrite run_bind, run_emit, run_bind.
  rewrite load_bodies_from_file_swallows_run by assumption.
  rewrite Hroots, transferred_until_raise.
  unfold no_shape_report. rewrite transferred_until_raise.
  rewrite decide_False.
  - rewrite <- app_assoc. reflexivity.
  - rewrite length_app, length_fmap. simpl. lia.
Qed.

End FileProperties.

Lemma failed_transfer_truncates_file_witness :
  build_dicts_for_file cos_poly truncated_file []
  = build_dicts_from cos_poly 0 [plate]
      [PrintProcessingFile (path_name truncated_file); AssertTrue true; PrintNoShape 2].
Proof.
  apply (failed_transfer_truncates_file cos_poly truncated_file [plate]
           [Some plate_inward] []); reflexivity.
Defined.

(** ** What the runs append to the log *)

Lemma emits_ret {A : Type} (P : event -> Prop) (a : A) : emits P (mret a).
Proof. intros log. exists []. rewrite app_nil_r. split; [reflexivity | constructor]. Qed.

Lemma emits_raise {A : Type} (P : event -> Prop) (e : exn) : emits P (@raise A e).
Proof. intros log. exists []. rewrite app_nil_r. split; [reflexivity | constructor]. Qed.

Lemma emits_lift {A : Type} (P : event -> Prop) (r : result A) : emits P (lift r).
Proof. intros log. exists []. rewrite app_nil_r. split; [reflexivity | constructor]. Qed.

Lemma emits_emit (P : event -> Prop) (e : event) : P e -> emits P (emit e).
Proof.
  intros He log. exists [e]. split; [reflexivity |].
  constructor; [exact He | constructor].
Qed.

Lemma emits_bind {A B : Type} (P : event -> Prop) (m : Test A) (f : A -> Test B) :
  emits P m -> (forall a, emits P (f a)) -> emits P (m ≫= f).
Proof.
  intros Hm Hf log. rewrite run_bind.
  destruct (Hm log) as (s1 & Hlog1 & Hs1).
  destruct (m log) as [log1 [a | e]]; simpl in Hlog1; subst log1.
  - destruct (Hf a (log ++ s1)) as (s2 & Hlog2 & Hs2).
    exists (s1 ++ s2). rewrite Hlog2, app_assoc.
    split; [reflexivity | apply Forall_app; auto].
  - exists s1. auto.
Qed.

Lemma emits_for_each {A : Type} (P : event -> Prop) (body : A -> Test unit)
    (l : list A) :
  (forall x, emits P (body x)) -> emits P (for_each body l).
Proof.
  intros Hbody. induction l as [| x l IH]; simpl.
  - apply emits_ret.
  - apply emits_bind; [apply Hbody | intros _; exact IH].
Qed.

Lemma emits_assertTrue (b : bool) : emits check_event (assertTrue b).
Proof.
  unfold assertTrue. apply emits_bind; [apply emits_emit; exact I |].
  intros _. destruct b; [apply emits_ret | apply emits_raise].
Qed.

Lemma emits_item1 {A : Type} (P : event -> Prop) (l : list A) (index : nat) :
  emits P (item1 l index).
Proof.
  unfold item1. destruct index as [| i]; [apply emits_raise |].
  destruct (l !! i); [apply emits_ret | apply emits_raise].
Qed.

Lemma emits_count_shell_faces (shs : list shell_record) (total : nat) :
  emits check_event (count_shell_faces shs total).
Proof.
  revert total. induction shs as [| shell shs IH]; intros total; simpl.
  - apply emits_ret.
  - apply emits_bind; [| intros _; apply IH].
    apply emits_for_each. intros face. apply emits_assertTrue.
Qed.

Section Footprint.

Variable math_cos : float -> float.

Lemma emits_vectors_parallel (v1 v2 : array3) :
  emits check_event (vectors_parallel math_cos v1 v2).
Proof.
  unfold vectors_parallel.
  destruct (np_linalg_norm v1 <? eps)%float; [apply emits_ret |].
  destruct (np_linalg_norm v2 <? eps)%float; [apply emits_ret |].
  apply emits_bind; [| intros cos_angle; apply emits_ret].
  unfold np_divide. apply emits_bind; [apply emits_emit; exact I |].
  intros _. apply emits_ret.
Qed.

Lemma emits_check_triangle (surf : float -> float -> array3 * array3 * array3)
    (face_orientation : bool) (mesh : Poly_Triangulation) (tri : nat * nat * nat) :
  emits check_event (check_triangle math_cos surf face_orientation mesh tri).
Proof.
  unfold check_triangle. destruct tri as [[index1 index2] index3].
  unfold get_tri_vertex_coord.
  apply emits_bind; [apply emits_item1 | intros pt1].
  apply emits_bind; [apply emits_item1 | intros pt2].
  apply emits_bind; [apply emits_item1 | intros pt3].
  apply emits_bind; [apply emits_item1 | intros uv1].
  apply emits_bind; [apply emits_vectors_parallel | intros b].
  apply emits_assertTrue.
Qed.

Lemma emits_build_dict_for_body (body : Shape) (expect_manifold : bool) :
  emits check_event (build_dict_for_body math_cos body expect_manifold).
Proof.
  unfold build_dict_for_body.
  apply emits_bind; [apply emits_lift | intros output].
  unfold check_output_for_body.
  apply emits_bind; [apply emits_assertTrue | intros _].
  destruct expect_manifold; [| apply emits_ret].
  apply emits_bind.
  - unfold check_face_orientation_wrt_shell.
    apply emits_bind; [apply emits_count_shell_faces | intros n].
    apply emits_assertTrue.
  - intros _. unfold check_face_orientations_against_triangles.
    apply emits_for_each. intros face.
    apply emits_bind; [apply emits_lift | intros face_index].
    apply emits_bind.
    + destruct (faces output !! face_index); [apply emits_ret | apply emits_raise].
    + intros output_face. unfold check_face_orientation_against_triangles.
      destruct (triangulation_of body face) as [mesh |]; [| apply emits_ret].
      apply emits_for_each. intros tri. apply emits_check_triangle.
Qed.

Lemma announced_check_events (suffix : list event) :
  Forall check_event suffix -> announced suffix = [].
Proof.
  induction 1 as [| e suffix He _ IH]; [reflexivity |].
  unfold announced in *.
  destruct e; simpl in He; try contradiction; simpl; exact IH.
Qed.

(** X6: the bodies of a file are announced one line each, in order, from
    the first on; building and checking a body prints no such line.  When
    the loop ends without error every body was announced.  When it
    raises, the announced bodies are exactly the ones up to the failing
    body: the bodies before it were processed without error, the error
    is the one of the failing body, and the log ends where that body's
    run ended. *)
Theorem bodies_announced_in_order (bodies : list Shape) (index : nat)
    (log log' : list event) (r : result unit) :
  build_dicts_from math_cos index bodies log = (log', r) ->
  exists suffix k,
    log' = log ++ suffix /\
    announced suffix = seq index k /\
    match r with
    | Ok _ => k = length bodies
    | Raise e =>
        exists before body after log1,
          bodies = before ++ body :: after /\
          k = S (length before) /\
          build_dicts_from math_cos index before log = (log1, Ok tt) /\
          build_dict_for_body math_cos body true
            (log1 ++ [PrintBody (index + length before)]) = (log', Raise e)
    end.
Proof.
  revert index log. induction bodies as [| body rest IH]; intros index log Hrun.
  - injection Hrun as <- <-. exists [], 0.
    rewrite app_nil_r. repeat split; reflexivity.
  - simpl in Hrun. rewrite run_bind, run_emit, run_bind in Hrun.
    destruct (emits_build_dict_for_body body true (log ++ [PrintBody index]))
      as (s1 & Hlog1 & Hs1).
    destruct (build_dict_for_body math_cos body true (log ++ [PrintBody index]))
      as [log1 [[] | e]] eqn:Hbody; simpl in Hlog1; subst log1.
    + destruct (IH _ _ Hrun) as (s2 & k & -> & Hann & Hr).
      exists ([PrintBody index] ++ s1 ++ s2), (S k).
      split; [rewrite <- !app_assoc; reflexivity |].
      split.
      * unfold announced in *. rewrite !omap_app, Hann.
        fold (announced s1). rewrite (announced_check_events s1 Hs1). reflexivity.
      * destruct r as [[] | e]; [simpl; lia |].
        destruct Hr as (before & failing & after & log1 & -> & -> & Hbefore & Hfail).
        exists (body :: before), failing, after, log1.
        split; [reflexivity |]. split; [reflexivity |]. split.
        -- simpl. rewrite run_bind, run_emit, run_bind, Hbody. exact Hbefore.
        -- simpl length. rewrite Nat.add_succ_r. exact Hfail.
    + injection Hrun as <- <-.
      exists ([PrintBody index] ++ s1), 1.
      split; [rewrite <- !app_assoc; reflexivity |].
      split.
      * unfold announced. rewrite omap_app.
        fold (announced s1). rewrite (announced_check_events s1 Hs1). reflexivity.
      * exists [], body, rest, log.
        split; [reflexivity |]. split; [reflexivity |]. split; [reflexivity |].
        simpl length. rewrite Nat.add_0_r. exact Hbody.
Qed.

End Footprint.

Lemma bodies_announced_in_order_witness :
  exists suffix k,
    [PrintBody 0; AssertTrue true; AssertTrue true; AssertTrue true; AssertTrue true;
     Divide (-1) 1; AssertTrue true; Divide (-1) 1; AssertTrue true;
     PrintBody 1; AssertTrue true; AssertTrue false] = [] ++ suffix /\
    announced suffix = seq 0 k /\
    exists before body after log1,
      [plate; plate_inward; plate] = before ++ body :: after /\
      k = S (length before) /\
      build_dicts_from cos_poly 0 before [] = (log1, Ok tt) /\
      build_dict_for_body cos_poly body true (log1 ++ [PrintBody (0 + length before)])
      = ([PrintBody 0; AssertTrue true; AssertTrue true; AssertTrue true;
          AssertTrue true; Divide (-1) 1; AssertTrue true; Divide (-1) 1;
          AssertTrue true; PrintBody 1; AssertTrue true; AssertTrue false],
         Raise AssertionError).
Proof.
  apply (bodies_announced_in_order cos_poly [plate; plate_inward; plate] 0 []
           _ (Raise AssertionError)).
  vm_compute. reflexivity.
Defined.

(** ** The check of one triangle *)

Lemma item1_found {A : Type} (l : list A) (i : nat) (x : A) (log : list event) :
  l !! i = Some x -> item1 l (S i) log = (log, Ok x).
Proof. intros H. unfold item1. rewrite H. reflexivity. Qed.

Section TriangleProperties.

Variable math_cos : float -> float.

(** With its four nodes found, the check of a triangle is the verdict of
    [vectors_parallel] on the two normals, asserted. *)
Lemma check_triangle_run (surf : float -> float -> array3 * array3 * array3)
    (face_orientation : bool) (mesh : Poly_Triangulation) (i1 i2 i3 : nat)
    (pt1 pt2 pt3 : array3) (uv1 : float * float) (log : list event) :
  Nodes mesh !! i1 = Some pt1 ->
  Nodes mesh !! i2 = Some pt2 ->
  Nodes mesh !! i3 = Some pt3 ->
  UVNodes mesh !! i1 = Some uv1 ->
  check_triangle math_cos surf face_orientation mesh (S i1, S i2, S i3) log
  = (b ← vectors_parallel math_cos (get_face_normal surf uv1 face_orientation)
                          (triangle_normal pt1 pt2 pt3);
     assertTrue b) log.
Proof.
  intros H1 H2 H3 Huv. unfold check_triangle, get_tri_vertex_coord.
  rewrite run_bind, (item1_found _ _ _ _ H1).
  rewrite run_bind, (item1_found _ _ _ _ H2).
  rewrite run_bind, (item1_found _ _ _ _ H3).
  rewrite run_bind, (item1_found _ _ _ _ Huv).
  reflexivity.
Qed.

(** X7: a triangle whose computed normal, or whose face normal, is
    shorter than [eps] is accepted with one true assertion and no
    division, whatever the face's flag says. *)
Theorem degenerate_triangle_accepted
    (surf : float -> float -> array3 * array3 * array3)
    (face_orientation : bool) (mesh : Poly_Triangulation) (i1 i2 i3 : nat)
    (pt1 pt2 pt3 : array3) (uv1 : float * float) (log : list event) :
  Nodes mesh !! i1 = Some pt1 ->
  Nodes mesh !! i2 = Some pt2 ->
  Nodes mesh !! i3 = Some pt3 ->
  UVNodes mesh !! i1 = Some uv1 ->
  (np_linalg_norm (get_face_normal surf uv1 face_orientation) <? eps)%float = true \/
  (np_linalg_norm (triangle_normal pt1 pt2 pt3) <? eps)%float = true ->
  check_triangle math_cos surf face_orientation mesh (S i1, S i2, S i3) log
  = (log ++ [AssertTrue true], Ok tt).
Proof.
  intros H1 H2 H3 Huv Hshort.
  rewrite (check_triangle_run _ _ _ _ _ _ _ _ _ _ _ H1 H2 H3 Huv).
  rewrite run_bind. unfold vectors_parallel.
  destruct (np_linalg_norm (get_face_normal surf uv1 face_orientation) <? eps)%float.
  - reflexivity.
  - destruct Hshort as [Hshort | Hshort]; [discriminate Hshort |].
    rewrite Hshort. reflexivity.
Qed.

(** X8: past the two guards a triangle passes exactly when the quotient
    of the dot product of the face normal with cross(pt2-pt1, pt2-pt3) by
    the product of their norms is below the cosine of the tolerance;
    otherwise the check raises an AssertionError.  Either way one
    division and one assertion are performed. *)
Theorem check_triangle_verdict
    (surf : float -> float -> array3 * array3 * array3)
    (face_orientation : bool) (mesh : Poly_Triangulation) (i1 i2 i3 : nat)
    (pt1 pt2 pt3 : array3) (uv1 : float * float) (log : list event) :
  Nodes mesh !! i1 = Some pt1 ->
  Nodes mesh !! i2 = Some pt2 ->
  Nodes mesh !! i3 = Some pt3 ->
  UVNodes mesh !! i1 = Some uv1 ->
  (np_linalg_norm (get_face_normal surf uv1 face_orientation) <? eps)%float = false ->
  (np_linalg_norm (triangle_normal pt1 pt2 pt3) <? eps)%float = false ->
  check_triangle math_cos surf face_orientation mesh (S i1, S i2, S i3) log
  = (log ++ [Divide (np_dot (get_face_normal surf uv1 face_orientation)
                            (triangle_normal pt1 pt2 pt3))
                    (np_linalg_norm (get_face_normal surf uv1 face_orientation)
                     * np_linalg_norm (triangle_normal pt1 pt2 pt3))%float;
             AssertTrue (cos_between (get_face_normal surf uv1 face_orientation)
                                     (triangle_normal pt1 pt2 pt3)
                         <? math_cos angle_tol_rands)%float],
     if (cos_between (get_face_normal surf uv1 face_orientation)
                     (triangle_normal pt1 pt2 pt3)
         <? math_cos angle_tol_rands)%float
     then Ok tt else Raise AssertionError).
Proof.
  intros H1 H2 H3 Huv Hface Htri.
  rewrite (check_triangle_run _ _ _ _ _ _ _ _ _ _ _ H1 H2 H3 Huv).
  rewrite run_bind, vectors_parallel_nondegenerate by assumption.
  fold (cos_between (get_face_normal surf uv1 face_orientation)
                    (triangle_normal pt1 pt2 pt3)).
  destruct (cos_between _ _ <? math_cos angle_tol_rands)%float.
  - rewrite run_assertTrue_true, <- app_assoc. reflexivity.
  - rewrite run_assertTrue_false, <- app_assoc. reflexivity.
Qed.

Lemma assertions_check_triangle
    (surf : float -> float -> array3 * array3 * array3)
    (face_orientation : bool) (mesh : Poly_Triangulation) (tri : nat * nat * nat)
    (log log' : list event) :
  check_triangle math_cos surf face_orientation mesh tri log = (log', Ok tt) ->
  exists suffix, log' = log ++ suffix /\ assertions suffix = [true].
Proof.
  destruct tri as [[index1 index2] index3].
  unfold check_triangle, get_tri_vertex_coord, item1.
  rewrite run_bind.
  destruct index1 as [| i1]; [discriminate |].
  destruct (Nodes mesh !! i1) as [pt1 |]; [| discriminate].
  simpl. rewrite run_bind.
  destruct index2 as [| i2]; [discriminate |].
  destruct (Nodes mesh !! i2) as [pt2 |]; [| discriminate].
  simpl. rewrite run_bind.
  destruct index3 as [| i3]; [discriminate |].
  destruct (Nodes mesh !! i3) as [pt3 |]; [| discriminate].
  simpl. rewrite run_bind.
  destruct (UVNodes mesh !! i1) as [uv1 |]; [| discriminate].
  simpl. rewrite run_bind.
  unfold vectors_parallel.
  destruct (np_linalg_norm _ <? eps)%float;
    [| destruct (np_linalg_norm _ <? eps)%float].
  - simpl. intros [= <-]. exists [AssertTrue true]. auto.
  - simpl. intros [= <-]. exists [AssertTrue true]. auto.
  - rewrite run_bind. unfold np_divide. rewrite run_bind, run_emit. simpl.
    destruct (_ <? cos_tol_angle math_cos)%float.
    + rewrite run_assertTrue_true. intros [= <-].
      eexists. rewrite <- app_assoc. split; reflexivity.
    + rewrite run_assertTrue_false. discriminate.
Qed.

Lemma assertions_for_each_check_triangle
    (surf : float -> float -> array3 * array3 * array3)
    (face_orientation : bool) (mesh : Poly_Triangulation)
    (tris : list (nat * nat * nat)) (log log' : list event) :
  for_each (check_triangle math_cos surf face_orientation mesh) tris log
    = (log', Ok tt) ->
  exists suffix, log' = log ++ suffix /\
                 assertions suffix = replicate (length tris) true.
Proof.
  revert log. induction tris as [| tri tris IH]; intros log; simpl.
  - intros [= <-]. exists []. rewrite app_nil_r. auto.
  - rewrite run_bind.
    destruct (check_triangle math_cos surf face_orientation mesh tri log)
      as [log1 [[] | e]] eqn:Htri; [| discriminate].
    intros Hrest.
    destruct (assertions_check_triangle _ _ _ _ _ _ Htri) as (s1 & -> & Hs1).
    destruct (IH _ Hrest) as (s2 & -> & Hs2).
    exists (s1 ++ s2). split; [rewrite app_assoc; reflexivity |].
    unfold assertions in *. rewrite omap_app, Hs1, Hs2. reflexivity.
Qed.

(** X9: a face with a mesh passes its check only after one assertion per
    triangle of the mesh, each of them true; nothing else is asserted. *)
Theorem face_check_asserts_every_triangle (body : Shape) (output_face : face_record)
    (face : Handle) (mesh : Poly_Triangulation) (log log' : list event) :
  triangulation_of body face = Some mesh ->
  check_face_orientation_against_triangles math_cos body output_face face log
    = (log', Ok tt) ->
  exists suffix, log' = log ++ suffix /\
                 assertions suffix = replicate (length (Triangles mesh)) true.
Proof.
  intros Hmesh. unfold check_face_orientation_against_triangles.
  rewrite Hmesh. apply assertions_for_each_check_triangle.
Qed.

End TriangleProperties.

Lemma degenerate_triangle_accepted_witness :
  check_triangle cos_poly plane_D1 false (triangle_mesh (1, 2, 2)) (1, 2, 2) []
  = ([AssertTrue true], Ok tt).
Proof.
  apply (degenerate_triangle_accepted cos_poly plane_D1 false
           (triangle_mesh (1, 2, 2)) 0 1 1
           (Array3 0 0 0) (Array3 1 0 0) (Array3 1 0 0) (0, 0)%float []);
    try reflexivity.
  right. vm_compute. reflexivity.
Defined.

Lemma check_triangle_verdict_witness :
  check_triangle cos_poly plane_D1 true (triangle_mesh (1, 2, 3)) (1, 2, 3) []
  = ([Divide (-1) 1; AssertTrue true], Ok tt).
Proof.
  apply (check_triangle_verdict cos_poly plane_D1 true (triangle_mesh (1, 2, 3))
           0 1 2 (Array3 0 0 0) (Array3 1 0 0) (Array3 0 1 0) (0, 0)%float []);
    first [reflexivity | vm_compute; reflexivity].
Defined.

Lemma face_check_asserts_every_triangle_witness :
  exists suffix,
    [Divide (-1) 1; AssertTrue true] = [] ++ suffix /\
    assertions suffix = replicate (length (Triangles (triangle_mesh (1, 2, 3)))) true.
Proof.
  apply (face_check_asserts_every_triangle cos_poly plate
           {| outer_wire := 0; inner_wires := []; surface_orientation := true |}
           1 (triangle_mesh (1, 2, 3)) []).
  - reflexivity.
  - vm_compute. reflexivity.
Defined.

(** ** The test as a whole *)

Section SuiteProperties.

Variable math_cos : float -> float.

(** X10: for the body that is not expected to be manifold the test
    asserts that the boolean operation reported no error and that meshing
    is done, and nothing else: it passes whatever the dictionary holds. *)
Theorem non_manifold_body_not_checked (builder : BOPAlgo_Builder) (out : dict)
    (log : list event) :
  HasErrors builder = false ->
  TopologyDictBuilder.build_dict_for_body
    (EntityMapper.new (builder_Shape builder)) (builder_Shape builder) = Ok out ->
  mesh_is_done (builder_Shape builder) = true ->
  build_dict_for_non_manifold_body math_cos builder log
  = (log ++ [AssertTrue true; AssertTrue true], Ok tt).
Proof.
  intros Herr Hbuild Hmesh.
  unfold build_dict_for_non_manifold_body, make_non_manifold_body.
  rewrite !run_bind, Herr. simpl negb. rewrite run_assertTrue_true. simpl.
  unfold build_dict_for_body. rewrite run_bind. unfold lift.
  rewrite Hbuild. unfold check_output_for_body.
  rewrite run_bind, Hmesh, run_assertTrue_true, <- app_assoc. reflexivity.
Qed.

(** X11: a file that fails ends the whole test with its error: the files
    listed after it, among them every [step] file when an [stp] file
    fails, are not processed. *)
Theorem failing_file_ends_the_test (builder : BOPAlgo_Builder)
    (glob : string -> list StepPath) (before : list StepPath) (file : StepPath)
    (after : list StepPath) (log log0 log1 log2 : list event) (e : exn) :
  build_dict_for_non_manifold_body math_cos builder log = (log0, Ok tt) ->
  glob "stp" ++ glob "step" = before ++ file :: after ->
  for_each (build_dicts_for_file math_cos) before log0 = (log1, Ok tt) ->
  build_dicts_for_file math_cos file log1 = (log2, Raise e) ->
  test_build_dicts_for_files math_cos builder glob log = (log2, Raise e).
Proof.
  intros Hbody Hfiles Hbefore Hfile.
  unfold test_build_dicts_for_files. rewrite run_bind, Hbody.
  unfold extensions. simpl flat_map. rewrite app_nil_r, Hfiles.
  exact (for_each_stops _ before file after log0 log1 log2 e Hbefore Hfile).
Qed.

End SuiteProperties.

Lemma non_manifold_body_not_checked_witness :
  build_dict_for_non_manifold_body cos_poly
    {| HasErrors := false; builder_Shape := plate_inward |} []
  = ([AssertTrue true; AssertTrue true], Ok tt).
Proof.
  apply (non_manifold_body_not_checked cos_poly
           {| HasErrors := false; builder_Shape := plate_inward |}
           (match TopologyDictBuilder.build_dict_for_body
                    (EntityMapper.new plate_inward) plate_inward with
            | Ok d => d
            | Raise _ => plate_dict
            end) []).
  - reflexivity.
  - vm_compute. reflexivity.
  - reflexivity.
Defined.

Lemma failing_file_ends_the_test_witness :
  data_dir "stp" ++ data_dir "step" = [one_body] ++ bad_body :: [one_body; late_file] /\
  test_build_dicts_for_files cos_poly
    {| HasErrors := false; builder_Shape := plate |} data_dir []
  = ([AssertTrue true; AssertTrue true;
      PrintProcessingFile "data/one_body.stp"; AssertTrue true; PrintBody 0;
      AssertTrue true; AssertTrue true; AssertTrue true; AssertTrue true;
      Divide (-1) 1; AssertTrue true; Divide (-1) 1; AssertTrue true;
      PrintProcessingFile "data/bad_body.stp"; AssertTrue true; PrintBody 0],
     Raise MalformedShapeError).
Proof.
  split; [reflexivity |].
  apply (failing_file_ends_the_test cos_poly
           {| HasErrors := false; builder_Shape := plate |} data_dir
           [one_body] bad_body [one_body; late_file] []
           [AssertTrue true; AssertTrue true]
           [AssertTrue true; AssertTrue true;
            PrintProcessingFile "data/one_body.stp"; AssertTrue true; PrintBody 0;
            AssertTrue true; AssertTrue true; AssertTrue true; AssertTrue true;
            Divide (-1) 1; AssertTrue true; Divide (-1) 1; AssertTrue true]).
  - vm_compute. reflexivity.
  - reflexivity.
  - vm_compute. reflexivity.
  - vm_compute. reflexivity.
Defined.

(** ** What a passing body establishes *)

(** X12: when [build_dict_for_body] passes for a body expected to be
    manifold, the dictionary was built, meshing was done, every face use
    of every shell record is outward and the face uses are as many as the
    faces. *)
Theorem passing_body_is_consistent (math_cos : float -> float) (body : Shape)
    (log log' : list event) :
  build_dict_for_body math_cos body true log = (log', Ok tt) ->
  exists output,
    TopologyDictBuilder.build_dict_for_body (EntityMapper.new body) body = Ok output /\
    mesh_is_done body = true /\
    total_face_uses output = length (faces output) /\
    forall shell face, shell ∈ shells output -> face ∈ shell_faces shell ->
                       face_orientation_wrt_shell face = true.
Proof.
  unfold build_dict_for_body. rewrite run_bind. unfold lift.
  destruct (TopologyDictBuilder.build_dict_for_body (EntityMapper.new body) body)
    as [output | e]; [| discriminate].
  unfold check_output_for_body. rewrite run_bind.
  destruct (mesh_is_done body); [| rewrite run_assertTrue_false; discriminate].
  rewrite run_assertTrue_true, run_bind.
  destruct (check_face_orientation_wrt_shell output (log ++ [AssertTrue true]))
    as [log1 [[] | e]] eqn:Hshell; [| discriminate].
  intros _. exists output.
  destruct (check_face_orientation_wrt_shell_sound _ _ _ Hshell) as [Hcount Hflags].
  auto.
Qed.

Lemma passing_body_is_consistent_witness :
  exists output,
    TopologyDictBuilder.build_dict_for_body (EntityMapper.new plate) plate = Ok output /\
    mesh_is_done plate = true /\
    total_face_uses output = length (faces output) /\
    forall shell face, shell ∈ shells output -> face ∈ shell_faces shell ->
                       face_orientation_wrt_shell face = true.
Proof.
  apply (passing_body_is_consistent cos_poly plate []
           (build_dict_for_body cos_poly plate true []).1).
  vm_compute. reflexivity.
Defined.
